(** * AssignmentViewer: a shallow embedding of the student assignment view

    The development follows [src/components/student/AssignmentViewer.tsx]
    and the storage policies of the two migrations under
    [supabase/migrations].

    - JavaScript strings are sequences of UTF-16 code units ([list N]);
      [String.prototype.trim] is written out over the ECMAScript
      WhiteSpace and LineTerminator code points.
    - The component's [Record<string, Assignment[]>] is an object made
      by [{}]: a [gmap] holds its own properties, and a read that finds
      no own property falls through to the members of
      [Object.prototype] ([getMember]).  What the source then does with
      such a member (calling [push], [filter] or [map] on it) throws a
      TypeError.
    - The asynchronous handlers are programs over an event signature
      (requests to the backend, notifications, state setters); [run]
      executes a program against an arbitrary deterministic backend and
      records the requests and notifications it makes.  The two loaders
      the effect starts without awaiting are interleaved: both requests
      go out before either answer is handled, and the backend decides
      which answer arrives first. *)

From stdpp Require Import base option list gmap strings sorting.
From Stdlib Require Import ZArith NArith Ascii String List Lia.

Local Open Scope Z_scope.

(** ** JavaScript strings *)

Module Js.

(** A string value: its UTF-16 code units. *)
Definition jsstring : Type := list N.

(** A source literal (ASCII only) as a string value. *)
Definition str (s : string) : jsstring :=
  List.map N_of_ascii (list_ascii_of_string s).

(** ECMAScript [WhiteSpace]: TAB, VT, FF, ZWNBSP and the code points of
    Unicode category Zs. *)
Definition isWhiteSpace (c : N) : bool :=
  (N.eqb c 0x0009 || N.eqb c 0x000B || N.eqb c 0x000C || N.eqb c 0xFEFF
   || N.eqb c 0x0020 || N.eqb c 0x00A0 || N.eqb c 0x1680
   || (N.leb 0x2000 c && N.leb c 0x200A)
   || N.eqb c 0x202F || N.eqb c 0x205F || N.eqb c 0x3000)%bool.

(** ECMAScript [LineTerminator]: LF, CR, LS, PS. *)
Definition isLineTerminator (c : N) : bool :=
  (N.eqb c 0x000A || N.eqb c 0x000D || N.eqb c 0x2028 || N.eqb c 0x2029)%bool.

(** What [trim] strips. *)
Definition isTrimmed (c : N) : bool :=
  (isWhiteSpace c || isLineTerminator c)%bool.

Fixpoint trimStart (s : jsstring) : jsstring :=
  match s with
  | c :: s' => if isTrimmed c then trimStart s' else s
  | [] => []
  end.

Definition trimEnd (s : jsstring) : jsstring :=
  rev (trimStart (rev s)).

(** [String.prototype.trim] *)
Definition trim (s : jsstring) : jsstring :=
  trimEnd (trimStart s).

(** [ToBoolean] on a string: only the empty string is falsy. *)
Definition truthy_string (s : jsstring) : bool :=
  match s with [] => false | _ :: _ => true end.

(** [ToBoolean] on [T | null] or [T | undefined] where [T] is an object
    type: every object is truthy. *)
Definition truthy {A} (o : option A) : bool :=
  match o with Some _ => true | None => false end.

(** [n || 0] on a non-negative integer: [0] is the only falsy one. *)
Definition or_zero (n : nat) : nat :=
  match n with O => O | S _ => n end.

End Js.

Import Js.

(** ** Data model (the interfaces of the component) *)

Record Assignment := {
  a_id : jsstring;
  a_course_id : jsstring;
  a_phase_number : Z;
  a_title : jsstring;
  a_description : option jsstring;
  a_due_days : option Z;
  a_max_score : option Z
}.

Record Submission := {
  s_id : jsstring;
  s_assignment_id : jsstring;
  s_submission_text : option jsstring;
  s_score : option Z;
  s_feedback : option jsstring;
  s_status : jsstring;
  s_submitted_at : jsstring
}.

Record CourseInfo := {
  c_id : jsstring;
  c_title : jsstring;
  c_current_phase : Z
}.

(** The identity [useAuth] yields; only its [id] is read. *)
Record User := { u_id : jsstring }.

(** The object handed to [insert] in [handleSubmit]. *)
Record SubmissionInsert := {
  i_assignment_id : jsstring;
  i_student_id : jsstring;
  i_submission_text : jsstring;
  i_status : jsstring
}.

#[global] Instance Assignment_eq_dec : EqDecision Assignment.
Proof. solve_decision. Defined.
#[global] Instance Submission_eq_dec : EqDecision Submission.
Proof. solve_decision. Defined.
#[global] Instance CourseInfo_eq_dec : EqDecision CourseInfo.
Proof. solve_decision. Defined.
#[global] Instance User_eq_dec : EqDecision User.
Proof. solve_decision. Defined.
#[global] Instance SubmissionInsert_eq_dec : EqDecision SubmissionInsert.
Proof. solve_decision. Defined.

(** ** Backend responses

    The client library resolves a query to [{ data, error }]: a success
    carries the data and a null error, a failure carries the error and
    null data. *)

Record PostgrestError := { e_message : jsstring }.

Inductive PostgrestResponse (T : Type) : Type :=
| ResponseSuccess (d : T)
| ResponseFailure (e : PostgrestError).
Arguments ResponseSuccess {T} d.
Arguments ResponseFailure {T} e.

Definition data {T} (r : PostgrestResponse T) : option T :=
  match r with ResponseSuccess d => Some d | ResponseFailure _ => None end.

Definition error {T} (r : PostgrestResponse T) : option PostgrestError :=
  match r with ResponseSuccess _ => None | ResponseFailure e => Some e end.

(** ** Component state (the five [useState] cells) *)

Record State := {
  assignments : gmap jsstring (list Assignment);
  submissions : list Submission;
  selectedAssignment : option Assignment;
  submissionText : jsstring;
  viewingFeedback : option Submission
}.

Definition initialState : State :=
  {| assignments := ∅; submissions := [];
     selectedAssignment := None; submissionText := [];
     viewingFeedback := None |}.

(** ** Objects used as maps

    [assignments] and [grouped] are plain objects.  [o[k]] yields the
    own property [k] when there is one, else the member [k] of
    [Object.prototype], else [undefined]. *)

(** What leaves a function instead of a value. *)
Inductive JsError : Type := TypeError.

Inductive completion (A : Type) : Type :=
| Normal (a : A)
| Throws (e : JsError).
Arguments Normal {A} a.
Arguments Throws {A} e.

(** A member of [Object.prototype]: a function with its [length], or
    the object [__proto__] yields ([Object.prototype] itself). *)
Inductive inherited : Type :=
| InheritedFunction (length : nat)
| InheritedObject.

Definition Object_prototype : list (jsstring * inherited) :=
  [ (str "constructor", InheritedFunction 1);
    (str "__defineGetter__", InheritedFunction 2);
    (str "__defineSetter__", InheritedFunction 2);
    (str "hasOwnProperty", InheritedFunction 1);
    (str "__lookupGetter__", InheritedFunction 1);
    (str "__lookupSetter__", InheritedFunction 1);
    (str "isPrototypeOf", InheritedFunction 1);
    (str "propertyIsEnumerable", InheritedFunction 1);
    (str "toString", InheritedFunction 0);
    (str "valueOf", InheritedFunction 0);
    (str "__proto__", InheritedObject);
    (str "toLocaleString", InheritedFunction 0) ].

Definition inheritedMember (k : jsstring) : option inherited :=
  snd <$> List.find (fun m => bool_decide (fst m = k)) Object_prototype.

Inductive member : Type :=
| Own (l : list Assignment)
| Inherited (m : inherited)
| Undefined.

(** [o[k]] *)
Definition getMember (o : gmap jsstring (list Assignment)) (k : jsstring)
    : member :=
  match o !! k with
  | Some l => Own l
  | None =>
      match inheritedMember k with
      | Some m => Inherited m
      | None => Undefined
      end
  end.

(** [k] names no member of [Object.prototype]. *)
Definition plainKey (k : jsstring) : Prop := inheritedMember k = None.

(** No own property carries the name of an inherited member: true of
    [{}], and kept by every turn of the grouping loop. *)
Definition own_keys_plain (g : gmap jsstring (list Assignment)) : Prop :=
  forall k, is_Some (g !! k) -> plainKey k.

(** [ToBoolean]: arrays, functions and objects are truthy. *)
Definition truthy_member (m : member) : bool :=
  match m with
  | Undefined => false
  | Own _ | Inherited _ => true
  end.

(** [m.length] where [m] is not [undefined]; [None] is [undefined]. *)
Definition memberLength (m : member) : option nat :=
  match m with
  | Own l => Some (length l)
  | Inherited (InheritedFunction n) => Some n
  | Inherited InheritedObject => None
  | Undefined => None
  end.

(** ** Programs over the component's effects *)

(** What a handler can do: query the backend, notify, set a state cell.
    The index is the type of the value the handler gets back.
    [Reject] is an exception leaving an async function nobody awaits:
    its promise rejects and the function is over.  [Arrival] asks which
    of two outstanding answers comes in first ([true]: the one requested
    first). *)
Inductive event : Type -> Type :=
| SelectAssignments (courseIds : list jsstring)
    : event (PostgrestResponse (list Assignment))
| SelectSubmissions (student_id : jsstring)
    : event (PostgrestResponse (list Submission))
| InsertSubmission (row : SubmissionInsert)
    : event (PostgrestResponse unit)
| ConsoleError (msg : jsstring) (e : PostgrestError) : event unit
| ToastError (msg : jsstring) : event unit
| ToastSuccess (msg : jsstring) : event unit
| SetAssignments (v : gmap jsstring (list Assignment)) : event unit
| SetSubmissions (v : list Submission) : event unit
| SetSelectedAssignment (v : option Assignment) : event unit
| SetSubmissionText (v : jsstring) : event unit
| SetViewingFeedback (v : option Submission) : event unit
| Reject (e : JsError) : event unit
| Arrival : event bool.

Inductive Prog (R : Type) : Type :=
| Ret (r : R)
| Vis {X : Type} (e : event X) (k : X -> Prog R).
Arguments Ret {R} r.
Arguments Vis {R X} e k.

Fixpoint bind {A R} (p : Prog A) (f : A -> Prog R) : Prog R :=
  match p with
  | Ret a => f a
  | Vis e k => Vis e (fun x => bind (k x) f)
  end.

Definition trigger {X} (e : event X) : Prog X := Vis e Ret.

Declare Scope prog_scope.
Delimit Scope prog_scope with prog.
Notation "x <- p ;; q" := (bind p (fun x => q))
  (at level 100, p at next level, right associativity) : prog_scope.
Notation "p ;; q" := (bind p (fun _ => q))
  (at level 100, right associativity) : prog_scope.
Local Open Scope prog_scope.

(** ** The data loader *)

(** One turn of the [forEach] of [fetchAssignments]: create the course's
    array when [grouped[course_id]] is falsy, then call [push] on
    [grouped[course_id]].  Only an array has [push]: on an inherited
    member the call throws. *)
Definition group_step (grouped : gmap jsstring (list Assignment))
    (assignment : Assignment) : completion (gmap jsstring (list Assignment)) :=
  let grouped' :=
    if negb (truthy_member (getMember grouped (a_course_id assignment)))
    then <[a_course_id assignment := []]> grouped
    else grouped in
  match getMember grouped' (a_course_id assignment) with
  | Own _ =>
      Normal (alter (fun l => l ++ [assignment])
                (a_course_id assignment) grouped')
  | Inherited _ | Undefined => Throws TypeError
  end.

(** The [forEach]: a throw ends it. *)
Fixpoint forEach_group (rows : list Assignment)
    (grouped : gmap jsstring (list Assignment))
    : completion (gmap jsstring (list Assignment)) :=
  match rows with
  | [] => Normal grouped
  | assignment :: rest =>
      match group_step grouped assignment with
      | Normal grouped' => forEach_group rest grouped'
      | Throws e => Throws e
      end
  end.

Definition groupByCourse (rows : list Assignment)
    : completion (gmap jsstring (list Assignment)) :=
  forEach_group rows ∅.

(** The rows of one course, in the order fetched: what the statements
    about [groupByCourse] compare its lists with. *)
Definition rowsOfCourse (k : jsstring) (rows : list Assignment)
    : list Assignment :=
  List.filter (fun a => bool_decide (a_course_id a = k)) rows.

Definition fetchAssignments (courses : list CourseInfo) : Prog unit :=
  let courseIds := List.map c_id courses in
  r <- trigger (SelectAssignments courseIds) ;;
  match error r with
  | Some e => trigger (ConsoleError (str "Failed to fetch assignments:") e)
  | None =>
      match groupByCourse (default [] (data r)) with
      | Normal grouped => trigger (SetAssignments grouped)
      | Throws e => trigger (Reject e)
      end
  end.

Definition fetchSubmissions (user : option User) : Prog unit :=
  match user with
  | None => Ret tt
  | Some u =>
      r <- trigger (SelectSubmissions (u_id u)) ;;
      trigger (SetSubmissions (default [] (data r)))
  end.

(** The events the source awaits: the three requests. *)
Definition awaited {X} (e : event X) : bool :=
  match e with
  | SelectAssignments _ | SelectSubmissions _ | InsertSubmission _ => true
  | _ => false
  end.

(** An async function called without [await] runs until its first
    [await]: the request goes out (its answer is [x]), and what it will
    do with the answer, [k x], is handed to [rest] for later. *)
Fixpoint upToAwait (p : Prog unit) (rest : Prog unit -> Prog unit)
    : Prog unit :=
  match p with
  | Ret _ => rest (Ret tt)
  | Vis e k =>
      if awaited e
      then Vis e (fun x => rest (k x))
      else Vis e (fun x => upToAwait (k x) rest)
  end.

(** A program that awaits nothing. *)
Inductive awaitFree {R : Type} : Prog R -> Prop :=
| awaitFree_Ret (r : R) : awaitFree (Ret r)
| awaitFree_Vis {X : Type} (e : event X) (k : X -> Prog R) :
    awaited e = false -> (forall x, awaitFree (k x)) -> awaitFree (Vis e k).

(** [p(); q();] for two async functions that await once each: both
    run up to their request, then the answers are handled in the order
    they arrive. *)
Definition startBoth (p q : Prog unit) : Prog unit :=
  upToAwait p (fun p' =>
  upToAwait q (fun q' =>
    first <- trigger Arrival ;;
    if first then (p' ;; q') else (q' ;; p'))).

(** The body of the [useEffect] keyed on [courses] and [user]. *)
Definition loadData (courses : list CourseInfo) (user : option User)
    : Prog unit :=
  if (0 <? length courses)%nat && truthy user
  then startBoth (fetchAssignments courses) (fetchSubmissions user)
  else Ret tt.

(** ** The submit handler

    [user], [selectedAssignment] and [submissionText] are the values the
    handler closed over when it was rendered.  The guard
    [!user || !selectedAssignment || !submissionText.trim()] is the three
    rejecting branches; past it the identity and the selection are
    there to be read. *)
Definition handleSubmit (user : option User) (st : State) : Prog unit :=
  match user, selectedAssignment st with
  | Some u, Some sel =>
      if negb (truthy_string (trim (submissionText st)))
      then trigger (ToastError (str "Please enter your submission"))
      else
        r <- trigger (InsertSubmission
               {| i_assignment_id := a_id sel;
                  i_student_id := u_id u;
                  i_submission_text := trim (submissionText st);
                  i_status := str "pending" |}) ;;
        match error r with
        | Some _ => trigger (ToastError (str "Failed to submit assignment"))
        | None =>
            trigger (ToastSuccess (str "Assignment submitted successfully!")) ;;
            trigger (SetSelectedAssignment None) ;;
            trigger (SetSubmissionText (str EmptyString)) ;;
            fetchSubmissions user
        end
  | _, _ => trigger (ToastError (str "Please enter your submission"))
  end.

(** ** Running a program

    Requests and notifications are what the outside sees of a run. *)
Inductive obs : Type :=
| ReqSelectAssignments (courseIds : list jsstring)
| ReqSelectSubmissions (student_id : jsstring)
| ReqInsert (row : SubmissionInsert)
| Logged (msg : jsstring) (e : PostgrestError)
| ToastedError (msg : jsstring)
| ToastedSuccess (msg : jsstring)
| Rejected (e : JsError).

#[global] Instance PostgrestError_eq_dec : EqDecision PostgrestError.
Proof. solve_decision. Defined.
#[global] Instance JsError_eq_dec : EqDecision JsError.
Proof. solve_decision. Defined.
#[global] Instance obs_eq_dec : EqDecision obs.
Proof. solve_decision. Defined.

(** A backend: any deterministic machine answering the three requests,
    and deciding which of two outstanding answers arrives first. *)
Record Backend (B : Type) := {
  on_select_assignments :
    B -> list jsstring -> PostgrestResponse (list Assignment) * B;
  on_select_submissions :
    B -> jsstring -> PostgrestResponse (list Submission) * B;
  on_insert :
    B -> SubmissionInsert -> PostgrestResponse unit * B;
  on_arrival : B -> bool * B
}.
Arguments on_select_assignments {B} _ _ _.
Arguments on_select_submissions {B} _ _ _.
Arguments on_insert {B} _ _ _.
Arguments on_arrival {B} _ _.

Record Outcome (B R : Type) := {
  trace : list obs;
  backend : B;
  state : State;
  result : R
}.
Arguments trace {B R} _.
Arguments backend {B R} _.
Arguments state {B R} _.
Arguments result {B R} _.

Definition set_assignments v (st : State) : State :=
  {| assignments := v; submissions := submissions st;
     selectedAssignment := selectedAssignment st;
     submissionText := submissionText st;
     viewingFeedback := viewingFeedback st |}.
Definition set_submissions v (st : State) : State :=
  {| assignments := assignments st; submissions := v;
     selectedAssignment := selectedAssignment st;
     submissionText := submissionText st;
     viewingFeedback := viewingFeedback st |}.
Definition set_selectedAssignment v (st : State) : State :=
  {| assignments := assignments st; submissions := submissions st;
     selectedAssignment := v;
     submissionText := submissionText st;
     viewingFeedback := viewingFeedback st |}.
Definition set_submissionText v (st : State) : State :=
  {| assignments := assignments st; submissions := submissions st;
     selectedAssignment := selectedAssignment st;
     submissionText := v;
     viewingFeedback := viewingFeedback st |}.
Definition set_viewingFeedback v (st : State) : State :=
  {| assignments := assignments st; submissions := submissions st;
     selectedAssignment := selectedAssignment st;
     submissionText := submissionText st;
     viewingFeedback := v |}.

(** One event: what is observed, the value returned to the program, the
    backend and the component state afterwards. *)
Definition handle {B X} (be : Backend B) (e : event X) (b : B) (st : State)
    : list obs * X * B * State :=
  match e in event X return list obs * X * B * State with
  | SelectAssignments ids =>
      let '(r, b') := on_select_assignments be b ids in
      ([ReqSelectAssignments ids], r, b', st)
  | SelectSubmissions uid =>
      let '(r, b') := on_select_submissions be b uid in
      ([ReqSelectSubmissions uid], r, b', st)
  | InsertSubmission row =>
      let '(r, b') := on_insert be b row in
      ([ReqInsert row], r, b', st)
  | ConsoleError msg e => ([Logged msg e], tt, b, st)
  | ToastError msg => ([ToastedError msg], tt, b, st)
  | ToastSuccess msg => ([ToastedSuccess msg], tt, b, st)
  | SetAssignments v => ([], tt, b, set_assignments v st)
  | SetSubmissions v => ([], tt, b, set_submissions v st)
  | SetSelectedAssignment v => ([], tt, b, set_selectedAssignment v st)
  | SetSubmissionText v => ([], tt, b, set_submissionText v st)
  | SetViewingFeedback v => ([], tt, b, set_viewingFeedback v st)
  | Reject e => ([Rejected e], tt, b, st)
  | Arrival =>
      let '(first, b') := on_arrival be b in
      ([], first, b', st)
  end.

(** [fetchSubmissions] at the end of [handleSubmit] is the handler's
    last act, so running it in place is what happens; the two loaders of
    the effect are interleaved by [startBoth]. *)
Fixpoint run {B R} (be : Backend B) (p : Prog R) (b : B) (st : State)
    : Outcome B R :=
  match p with
  | Ret r => {| trace := []; backend := b; state := st; result := r |}
  | Vis e k =>
      let '(o, x, b', st') := handle be e b st in
      let out := run be (k x) b' st' in
      {| trace := o ++ trace out; backend := backend out;
         state := state out; result := result out |}
  end.

(** Which observations are requests, writes, fetches, notifications. *)
Definition is_insert (o : obs) : bool :=
  match o with ReqInsert _ => true | _ => false end.
Definition is_assignment_fetch (o : obs) : bool :=
  match o with ReqSelectAssignments _ => true | _ => false end.
Definition is_submission_fetch (o : obs) : bool :=
  match o with ReqSelectSubmissions _ => true | _ => false end.
Definition is_request (o : obs) : bool :=
  is_insert o || is_assignment_fetch o || is_submission_fetch o.
Definition is_toast (o : obs) : bool :=
  match o with ToastedError _ | ToastedSuccess _ => true | _ => false end.

(** ** View model *)

(** [submissions.find((s) => s.assignment_id === assignmentId)] *)
Definition getSubmission (subs : list Submission) (assignmentId : jsstring)
    : option Submission :=
  List.find (fun s => bool_decide (s_assignment_id s = assignmentId)) subs.

Inductive Badge : Type :=
| BadgeNotSubmitted
| BadgePending
| BadgeGraded
| BadgeStatus (text : jsstring).

Definition getStatusBadge (submission : option Submission) : Badge :=
  match submission with
  | None => BadgeNotSubmitted
  | Some s =>
      if bool_decide (s_status s = str "pending") then BadgePending
      else if bool_decide (s_status s = str "graded") then BadgeGraded
      else BadgeStatus (s_status s)
  end.

(** [assignments[courseId]?.length || 0]: [undefined] when the member
    or its [length] is, and then 0. *)
Definition getAssignmentCountForCourse (st : State) (courseId : jsstring)
    : nat :=
  match memberLength (getMember (assignments st) courseId) with
  | Some n => or_zero n
  | None => O
  end.

(** [(assignments[courseId] || []).filter(...).length]: only an array
    has [filter]. *)
Definition getCompletedCountForCourse (st : State) (courseId : jsstring)
    : completion nat :=
  let m := getMember (assignments st) courseId in
  let courseAssignments := if truthy_member m then m else Own [] in
  match courseAssignments with
  | Own l =>
      Normal (length (List.filter
                (fun a => truthy (getSubmission (submissions st) (a_id a)))
                l))
  | Inherited _ | Undefined => Throws TypeError
  end.

(** [x && <p>{x}</p>] on a nullable string: rendered when non-empty. *)
Definition shown (x : option jsstring) : option jsstring :=
  match x with
  | Some d => if truthy_string d then Some d else None
  | None => None
  end.

(** One assignment row.  [row_submit] is the Submit button with the
    assignment its click selects, [row_view_feedback] the View Feedback
    button with the submission its click opens, [row_awaiting] the
    "Awaiting tutor review..." line. *)
Record AssignmentRow := {
  row_key : jsstring;
  row_title : jsstring;
  row_phase : Z;
  row_due_days : option Z;
  row_max_score : option Z;
  row_badge : Badge;
  row_description : option jsstring;
  row_submit : option Assignment;
  row_view_feedback : option Submission;
  row_awaiting : bool
}.

Definition renderAssignment (subs : list Submission) (assignment : Assignment)
    : AssignmentRow :=
  let submission := getSubmission subs (a_id assignment) in
  {| row_key := a_id assignment;
     row_title := a_title assignment;
     row_phase := a_phase_number assignment;
     row_due_days := a_due_days assignment;
     row_max_score := a_max_score assignment;
     row_badge := getStatusBadge submission;
     row_description := shown (a_description assignment);
     row_submit :=
       if negb (truthy submission) then Some assignment else None;
     row_view_feedback :=
       match submission with
       | Some s =>
           if bool_decide (s_status s = str "graded") then Some s else None
       | None => None
       end;
     row_awaiting :=
       match submission with
       | Some s => bool_decide (s_status s = str "pending")
       | None => false
       end |}.

Inductive CourseBody : Type :=
| NoAssignments (msg : jsstring)
| AssignmentRows (rows : list AssignmentRow).

(** One course of the accordion, expression by expression: an
    expression that throws is [Throws] where its value would stand. *)
Record CourseItem := {
  item_key : jsstring;
  item_title : jsstring;
  item_completed : completion nat;
  item_total : nat;
  item_body : completion CourseBody
}.

(** The body tests [!assignments[course.id] ||
    assignments[course.id].length === 0] and otherwise calls [map] on
    [assignments[course.id]]; only an array has [map]. *)
Definition renderCourse (st : State) (course : CourseInfo) : CourseItem :=
  {| item_key := c_id course;
     item_title := c_title course;
     item_completed := getCompletedCountForCourse st (c_id course);
     item_total := getAssignmentCountForCourse st (c_id course);
     item_body :=
       let m := getMember (assignments st) (c_id course) in
       if negb (truthy_member m)
          || bool_decide (memberLength m = Some O)
       then Normal (NoAssignments (str "No assignments available yet"))
       else
         match m with
         | Own l =>
             Normal (AssignmentRows
                       (List.map (renderAssignment (submissions st)) l))
         | Inherited _ | Undefined => Throws TypeError
         end |}.

(** An expression of the item throws, and with it the render. *)
Definition itemThrows (i : CourseItem) : bool :=
  match item_completed i, item_body i with
  | Normal _, Normal _ => false
  | _, _ => true
  end.

Inductive CourseList : Type :=
| EmptyState (msg : jsstring)
| Accordion (items : list CourseItem).

Record SubmitDialog := {
  sd_title : jsstring;
  sd_description : option jsstring;
  sd_value : jsstring
}.

Record FeedbackDialog := {
  fd_score : option Z;
  fd_feedback : option jsstring;
  fd_submission_text : option jsstring
}.

Record View := {
  view_courses : CourseList;
  view_submit_dialog : option SubmitDialog;
  view_feedback_dialog : option FeedbackDialog
}.

(** The JSX the component returns.  It reads [courses] and the state
    cells; the identity is not consulted. *)
Definition render (courses : list CourseInfo) (st : State) : View :=
  {| view_courses :=
       if (length courses =? 0)%nat
       then EmptyState (str "Enroll in a course to see assignments")
       else Accordion (List.map (renderCourse st) courses);
     view_submit_dialog :=
       match selectedAssignment st with
       | Some sel =>
           Some {| sd_title := a_title sel;
                   sd_description := shown (a_description sel);
                   sd_value := submissionText st |}
       | None => None
       end;
     view_feedback_dialog :=
       match viewingFeedback st with
       | Some s =>
           Some {| fd_score := s_score s;
                   fd_feedback := shown (s_feedback s);
                   fd_submission_text := s_submission_text s |}
       | None => None
       end |}.

(** The render throws: some course of the accordion does. *)
Definition renderThrows (v : View) : bool :=
  match view_courses v with
  | EmptyState _ => false
  | Accordion items => existsb itemThrows items
  end.

(** ** Dialog handlers (the inline callbacks of the JSX) *)

(** [onClick={() => setSelectedAssignment(assignment)}] of a row's Submit
    button. *)
Definition clickSubmit (assignment : Assignment) (st : State) : State :=
  set_selectedAssignment (Some assignment) st.

(** [onChange={(e) => setSubmissionText(e.target.value)}] *)
Definition changeText (value : jsstring) (st : State) : State :=
  set_submissionText value st.

(** [onOpenChange={(open) => !open && setSelectedAssignment(null)}] *)
Definition submitDialogOpenChange (open : bool) (st : State) : State :=
  if negb open then set_selectedAssignment None st else st.

(** [onClick={() => setSelectedAssignment(null)}] of Cancel. *)
Definition clickCancel (st : State) : State :=
  set_selectedAssignment None st.

(** [onClick={() => setViewingFeedback(submission)}] of View Feedback. *)
Definition clickViewFeedback (submission : Submission) (st : State) : State :=
  set_viewingFeedback (Some submission) st.

(** [onOpenChange={(open) => !open && setViewingFeedback(null)}] *)
Definition feedbackDialogOpenChange (open : bool) (st : State) : State :=
  if negb open then set_viewingFeedback None st else st.

(** [onClick={() => setViewingFeedback(null)}] of Close. *)
Definition clickClose (st : State) : State :=
  set_viewingFeedback None st.

(** ** Storage policies of the migrations *)

Module Sql.

(** SQL truth values: [None] is NULL. *)
Definition sqlbool : Type := option bool.

Definition sql_and (a b : sqlbool) : sqlbool :=
  match a, b with
  | Some false, _ => Some false
  | _, Some false => Some false
  | Some true, Some true => Some true
  | _, _ => None
  end.

Definition sql_eq {A} `{EqDecision A} (a b : option A) : sqlbool :=
  match a, b with
  | Some x, Some y => Some (bool_decide (x = y))
  | _, _ => None
  end.

Definition is_not_null {A} (a : option A) : sqlbool :=
  Some (match a with Some _ => true | None => false end).

(** A qualification lets a row through only when it is TRUE. *)
Definition holds (b : sqlbool) : bool :=
  match b with Some true => true | _ => false end.

(** [EXISTS (SELECT 1 FROM rows WHERE cond)] *)
Definition sql_exists {A} (rows : list A) (cond : A -> sqlbool) : sqlbool :=
  Some (existsb (fun r => holds (cond r)) rows).

(** A [uuid] is a 128-bit number; its text form is 32 lower-case
    hexadecimal digits grouped 8-4-4-4-12. *)
Definition uuid : Type := N.

Definition hex_digit (d : N) : ascii :=
  nth (N.to_nat d)
    ["0"; "1"; "2"; "3"; "4"; "5"; "6"; "7";
     "8"; "9"; "a"; "b"; "c"; "d"; "e"; "f"]%char "0"%char.

(** The low [width] hexadecimal digits of [n]. *)
Fixpoint hex_fixed (width : nat) (n : N) : string :=
  match width with
  | O => EmptyString
  | S w =>
      hex_fixed w (N.shiftr n 4)
        +:+ String (hex_digit (N.land n 15)) EmptyString
  end.

Definition uuid_text (u : uuid) : string :=
  hex_fixed 8 (N.shiftr u 96) +:+ "-" +:+
  hex_fixed 4 (N.shiftr u 80) +:+ "-" +:+
  hex_fixed 4 (N.shiftr u 64) +:+ "-" +:+
  hex_fixed 4 (N.shiftr u 48) +:+ "-" +:+
  hex_fixed 12 u.

(** [string_to_array(s, '/')]: the empty string gives the empty array. *)
Fixpoint split_on (delim : ascii) (s : string) : list string :=
  match s with
  | EmptyString => [EmptyString]
  | String c s' =>
      if Ascii.eqb c delim then EmptyString :: split_on delim s'
      else match split_on delim s' with
           | part :: rest => String c part :: rest
           | [] => [String c EmptyString]
           end
  end.

Definition string_to_array (s : string) (delim : ascii) : list string :=
  match s with
  | EmptyString => []
  | _ => split_on delim s
  end.

(** [storage.foldername(name)]: the path's components without the last
    one (the file name). *)
Definition foldername (name : string) : list string :=
  removelast (string_to_array name "/"%char).

(** Array subscript [a[i]]: 1-based, NULL out of range. *)
Definition subscript (a : list string) (i : nat) : option string :=
  match i with
  | O => None
  | S j => nth_error a j
  end.

(** A row of [storage.objects], as far as the policies read it. *)
Record object := {
  bucket_id : string;
  name : string
}.

Record tutor_course := {
  tutor_id : uuid;
  course_id : uuid
}.

(** What a qualification is evaluated in: the caller's identity
    ([auth.uid()]), the [tutor_courses] table, and [has_role], which the
    schema declares outside these migrations. *)
Record Env := {
  auth_uid : option uuid;
  tutor_courses : list tutor_course;
  has_role : option uuid -> string -> bool
}.

Definition qual : Type := Env -> object -> sqlbool.

Inductive command : Type := SELECT | INSERT | UPDATE | DELETE.

#[global] Instance command_eq_dec : EqDecision command.
Proof. solve_decision. Defined.

Inductive policy_for : Type :=
| FOR_ALL
| FOR (c : command).

Record policy := {
  pol_name : string;
  pol_for : policy_for;
  pol_using : option qual;
  pol_with_check : option qual
}.

Definition folder_is (o : object) (i : nat) (v : option string) : sqlbool :=
  sql_eq (subscript (foldername (name o)) i) v.

Definition bucket_is (o : object) (b : string) : sqlbool :=
  sql_eq (Some (bucket_id o)) (Some b).

Definition caller_is_tutor (env : Env) : sqlbool :=
  sql_exists (tutor_courses env)
    (fun tc => sql_eq (Some (tutor_id tc)) (auth_uid env)).

(** *** Bucket [assignments] *)

Definition students_can_upload : policy :=
  {| pol_name := "Students can upload submission files";
     pol_for := FOR INSERT;
     pol_using := None;
     pol_with_check := Some (fun env o =>
       sql_and (bucket_is o "assignments")
      (sql_and (is_not_null (auth_uid env))
      (sql_and (folder_is o 1 (Some "submissions"))
               (folder_is o 2 (uuid_text <$> auth_uid env))))) |}.

Definition students_can_view : policy :=
  {| pol_name := "Students can view own submission files";
     pol_for := FOR SELECT;
     pol_using := Some (fun env o =>
       sql_and (bucket_is o "assignments")
      (sql_and (folder_is o 1 (Some "submissions"))
               (folder_is o 2 (uuid_text <$> auth_uid env))));
     pol_with_check := None |}.

Definition tutors_can_view : policy :=
  {| pol_name := "Tutors can view submission files";
     pol_for := FOR SELECT;
     pol_using := Some (fun env o =>
       sql_and (bucket_is o "assignments")
      (sql_and (folder_is o 1 (Some "submissions"))
               (caller_is_tutor env)));
     pol_with_check := None |}.

Definition admins_manage_assignment_files : policy :=
  {| pol_name := "Admins can manage all assignment files";
     pol_for := FOR_ALL;
     pol_using := Some (fun env o =>
       sql_and (bucket_is o "assignments")
               (Some (has_role env (auth_uid env) "admin")));
     pol_with_check := None |}.

(** *** Bucket [lesson-materials] *)

Definition anyone_can_view_materials : policy :=
  {| pol_name := "Anyone can view lesson materials files";
     pol_for := FOR SELECT;
     pol_using := Some (fun _ o => bucket_is o "lesson-materials");
     pol_with_check := None |}.

Definition tutors_can_upload_materials : policy :=
  {| pol_name := "Tutors can upload lesson materials";
     pol_for := FOR INSERT;
     pol_using := None;
     pol_with_check := Some (fun env o =>
       sql_and (bucket_is o "lesson-materials") (caller_is_tutor env)) |}.

Definition tutors_can_delete_materials : policy :=
  {| pol_name := "Tutors can delete their lesson materials";
     pol_for := FOR DELETE;
     pol_using := Some (fun env o =>
       sql_and (bucket_is o "lesson-materials") (caller_is_tutor env));
     pol_with_check := None |}.

Definition admins_manage_material_files : policy :=
  {| pol_name := "Admins can manage all lesson materials files";
     pol_for := FOR_ALL;
     pol_using := Some (fun env o =>
       sql_and (bucket_is o "lesson-materials")
               (Some (has_role env (auth_uid env) "admin")));
     pol_with_check := None |}.

(** Every policy the two migrations create on [storage.objects]. *)
Definition storage_policies : list policy :=
  [ students_can_upload; students_can_view; tutors_can_view;
    admins_manage_assignment_files;
    anyone_can_view_materials; tutors_can_upload_materials;
    tutors_can_delete_materials; admins_manage_material_files ].

(** *** Row-level security: permissive policies are OR-ed *)

Definition applies (p : policy) (c : command) : bool :=
  match pol_for p with
  | FOR_ALL => true
  | FOR c' => bool_decide (c = c')
  end.

Definition passes (q : option qual) (env : Env) (o : object) : bool :=
  match q with
  | Some e => holds (e env o)
  | None => true
  end.

(** The check a new row must pass: WITH CHECK, or USING when the policy
    has no WITH CHECK. *)
Definition check_of (p : policy) : option qual :=
  match pol_with_check p with
  | Some e => Some e
  | None => pol_using p
  end.

(** An existing row is visible to [c] (SELECT, DELETE) when some
    applicable policy's USING holds. *)
Definition visible (ps : list policy) (c : command) (env : Env) (o : object)
    : bool :=
  existsb (fun p => applies p c && passes (pol_using p) env o) ps.

(** A new row may be inserted when some applicable policy's check
    holds. *)
Definition may_insert (ps : list policy) (env : Env) (o : object) : bool :=
  existsb (fun p => applies p INSERT && passes (check_of p) env o) ps.

End Sql.

(** ** Row-level security beyond SELECT and INSERT, and the
    [lesson_materials] table *)

Module Rls.

Import Sql.

(** A [uuid] value has 128 bits. *)
Definition is_uuid (u : N) : Prop := (u < 2 ^ 128)%N.

(** Whether [c] occurs in [s]. *)
Fixpoint has_char (c : ascii) (s : string) : bool :=
  match s with
  | EmptyString => false
  | String x s' => Ascii.eqb x c || has_char c s'
  end.

(** The student's own-folder test, as both student policies write it. *)
Definition own_folder_test (env : Env) (o : object) : bool :=
  holds (folder_is o 1 (Some "submissions"))
  && holds (folder_is o 2 (uuid_text <$> auth_uid env)).

(** The check a command's new row must pass under the OR of the
    applicable policies ([may_insert] is this at INSERT). *)
Definition check_passes (ps : list policy) (c : command) (env : Env)
    (o : object) : bool :=
  existsb (fun p => applies p c && passes (check_of p) env o) ps.

(** UPDATE: the existing row under USING, the new row under the
    check. *)
Definition may_update (ps : list policy) (env : Env) (old new : object)
    : bool :=
  visible ps UPDATE env old && check_passes ps UPDATE env new.

(** *** Table [public.lesson_materials] *)

Record lesson := {
  l_id : uuid;
  l_course_id : uuid
}.

Record lesson_material := {
  lm_id : uuid;
  lm_lesson_id : uuid;
  lm_file_name : string;
  lm_file_url : string;
  lm_file_type : option string;
  lm_file_size : option Z;
  lm_created_at : Z
}.

(** The session with the [lessons] table the tutor policy joins.  The
    tables are what the caller's own queries see of them. *)
Record Db := {
  session : Env;
  lessons : list lesson
}.

Definition row_qual : Type := Db -> lesson_material -> sqlbool.

Record table_policy := {
  tp_name : string;
  tp_for : policy_for;
  tp_using : option row_qual;
  tp_with_check : option row_qual
}.

(** [lessons l JOIN tutor_courses tc ON tc.course_id = l.course_id] *)
Definition lessons_join_tutor_courses (db : Db)
    : list (lesson * tutor_course) :=
  List.filter
    (fun p => holds (sql_eq (Some (course_id (snd p)))
                            (Some (l_course_id (fst p)))))
    (list_prod (lessons db) (tutor_courses (session db))).

Definition anyone_can_view_rows : table_policy :=
  {| tp_name := "Anyone can view lesson materials";
     tp_for := FOR SELECT;
     tp_using := Some (fun _ _ => Some true);
     tp_with_check := None |}.

Definition tutors_manage_rows : table_policy :=
  {| tp_name := "Tutors can manage materials for their courses";
     tp_for := FOR_ALL;
     tp_using := Some (fun db row =>
       sql_exists (lessons_join_tutor_courses db)
         (fun p =>
            sql_and (sql_eq (Some (l_id (fst p))) (Some (lm_lesson_id row)))
                    (sql_eq (Some (tutor_id (snd p)))
                            (auth_uid (session db)))));
     tp_with_check := None |}.

Definition admins_manage_rows : table_policy :=
  {| tp_name := "Admins can manage all materials";
     tp_for := FOR_ALL;
     tp_using := Some (fun db _ =>
       Some (has_role (session db) (auth_uid (session db)) "admin"));
     tp_with_check := None |}.

Definition lesson_materials_policies : list table_policy :=
  [ anyone_can_view_rows; tutors_manage_rows; admins_manage_rows ].

Definition tp_applies (p : table_policy) (c : command) : bool :=
  match tp_for p with
  | FOR_ALL => true
  | FOR c' => bool_decide (c = c')
  end.

Definition tp_passes (q : option row_qual) (db : Db) (row : lesson_material)
    : bool :=
  match q with
  | Some e => holds (e db row)
  | None => true
  end.

Definition tp_check_of (p : table_policy) : option row_qual :=
  match tp_with_check p with
  | Some e => Some e
  | None => tp_using p
  end.

(** An existing row is reachable by [c] under USING. *)
Definition row_visible (ps : list table_policy) (c : command) (db : Db)
    (row : lesson_material) : bool :=
  existsb (fun p => tp_applies p c && tp_passes (tp_using p) db row) ps.

(** A new row of [c] passes the check. *)
Definition row_check_passes (ps : list table_policy) (c : command) (db : Db)
    (row : lesson_material) : bool :=
  existsb (fun p => tp_applies p c && tp_passes (tp_check_of p) db row) ps.

(** The caller tutors the course of the row's lesson. *)
Definition tutors_lesson_of (db : Db) (row : lesson_material) : Prop :=
  exists l tc,
    In l (lessons db) /\ In tc (tutor_courses (session db))
    /\ l_id l = lm_lesson_id row
    /\ course_id tc = l_course_id l
    /\ auth_uid (session db) = Some (tutor_id tc).

End Rls.

(** ** Backends and sample data for the examples *)

(** Rows of [assignment_submissions] with their owner. *)
Record Store := {
  tbl_assignments : list Assignment;
  tbl_submissions : list (jsstring * Submission)
}.

Definition by_phase (a b : Assignment) : Prop :=
  a_phase_number a <= a_phase_number b.

#[global] Instance by_phase_dec a b : Decision (by_phase a b).
Proof. unfold by_phase. apply _. Defined.

(** An in-memory backend: selects filter the tables (assignments ordered
    by phase number), inserts append a row. *)
Definition memoryBackend : Backend Store :=
  {| on_select_assignments := fun b ids =>
       (ResponseSuccess
          (merge_sort by_phase
             (List.filter (fun a => bool_decide (a_course_id a ∈ ids))
                (tbl_assignments b))), b);
     on_select_submissions := fun b uid =>
       (ResponseSuccess
          (List.map snd
             (List.filter (fun r => bool_decide (fst r = uid))
                (tbl_submissions b))), b);
     on_insert := fun b row =>
       (ResponseSuccess tt,
        {| tbl_assignments := tbl_assignments b;
           tbl_submissions :=
             tbl_submissions b ++
             [(i_student_id row,
               {| s_id := str "s" ++ [N.of_nat (length (tbl_submissions b))];
                  s_assignment_id := i_assignment_id row;
                  s_submission_text := Some (i_submission_text row);
                  s_score := None;
                  s_feedback := None;
                  s_status := i_status row;
                  s_submitted_at := str "now" |})] |});
     on_arrival := fun b => (true, b) |}.

(** A backend on which every request fails. *)
Definition unavailable : PostgrestError :=
  {| e_message := str "service unavailable" |}.

Definition brokenBackend : Backend unit :=
  {| on_select_assignments := fun b _ => (ResponseFailure unavailable, b);
     on_select_submissions := fun b _ => (ResponseFailure unavailable, b);
     on_insert := fun b _ => (ResponseFailure unavailable, b);
     on_arrival := fun b => (true, b) |}.

(** A backend whose later answer overtakes the earlier one. *)
Definition overtaking {B} (be : Backend B) : Backend B :=
  {| on_select_assignments := on_select_assignments be;
     on_select_submissions := on_select_submissions be;
     on_insert := on_insert be;
     on_arrival := fun b => (false, b) |}.

Definition alice : User := {| u_id := str "u1" |}.

Definition algebra : CourseInfo :=
  {| c_id := str "c1"; c_title := str "Algebra I"; c_current_phase := 1 |}.

Definition hw1 : Assignment :=
  {| a_id := str "a1"; a_course_id := str "c1"; a_phase_number := 1;
     a_title := str "HW1"; a_description := None;
     a_due_days := None; a_max_score := None |}.

Definition hw2 : Assignment :=
  {| a_id := str "a2"; a_course_id := str "c1"; a_phase_number := 2;
     a_title := str "HW2"; a_description := None;
     a_due_days := Some 7; a_max_score := Some 100 |}.

Definition quiz : Assignment :=
  {| a_id := str "a3"; a_course_id := str "c2"; a_phase_number := 1;
     a_title := str "Quiz"; a_description := Some (str "Chapter 1");
     a_due_days := Some 3; a_max_score := Some 10 |}.

Definition store0 : Store :=
  {| tbl_assignments := [hw1]; tbl_submissions := [] |}.

Definition graded_hw1 : Submission :=
  {| s_id := str "s0"; s_assignment_id := str "a1";
     s_submission_text := Some (str "My answer");
     s_score := Some 85; s_feedback := Some (str "Good work");
     s_status := str "graded"; s_submitted_at := str "now" |}.

Definition pending_hw1 : Submission :=
  {| s_id := str "s1"; s_assignment_id := str "a1";
     s_submission_text := Some (str "Second try");
     s_score := None; s_feedback := None;
     s_status := str "pending"; s_submitted_at := str "later" |}.

(** A student session and an upload under the student's own folder. *)
Definition student_env : Sql.Env :=
  {| Sql.auth_uid := Some 0x123e4567e89b12d3a456426614174000%N;
     Sql.tutor_courses := [];
     Sql.has_role := fun _ _ => false |}.

Definition essay : Sql.object :=
  {| Sql.bucket_id := "assignments";
     Sql.name := "submissions/123e4567-e89b-12d3-a456-426614174000/essay.txt" |}.

(** Another student, a tutor of one course, an administrator, and a
    caller without a session. *)
Definition other_student : Sql.uuid := 0x9b2d5a0c4f6e4c1a8d3e5f7a9b1c3d5e%N.

Definition tutor_env : Sql.Env :=
  {| Sql.auth_uid := Some 0x00000000000040008000000000000007%N;
     Sql.tutor_courses :=
       [{| Sql.tutor_id := 0x00000000000040008000000000000007%N;
           Sql.course_id := 0x000000000000400080000000000000c1%N |}];
     Sql.has_role := fun _ _ => false |}.

Definition admin_env : Sql.Env :=
  {| Sql.auth_uid := Some 0x00000000000040008000000000000001%N;
     Sql.tutor_courses := [];
     Sql.has_role := fun who role =>
       bool_decide (who = Some 0x00000000000040008000000000000001%N)
       && bool_decide (role = "admin") |}.

Definition anonymous_env : Sql.Env :=
  {| Sql.auth_uid := None;
     Sql.tutor_courses := Sql.tutor_courses tutor_env;
     Sql.has_role := fun _ _ => false |}.

Definition others_essay : Sql.object :=
  {| Sql.bucket_id := "assignments";
     Sql.name := "submissions/9b2d5a0c-4f6e-4c1a-8d3e-5f7a9b1c3d5e/essay.txt" |}.

Definition slides : Sql.object :=
  {| Sql.bucket_id := "lesson-materials";
     Sql.name := "c1/week1/slides.pdf" |}.

(** One lesson of the tutor's course, one of another course, and a
    material row for each. *)
Definition tutor_db : Rls.Db :=
  {| Rls.session := tutor_env;
     Rls.lessons :=
       [{| Rls.l_id := 0x11%N;
           Rls.l_course_id := 0x000000000000400080000000000000c1%N |};
        {| Rls.l_id := 0x22%N;
           Rls.l_course_id := 0x000000000000400080000000000000c2%N |}] |}.

Definition own_material : Rls.lesson_material :=
  {| Rls.lm_id := 0x100%N; Rls.lm_lesson_id := 0x11%N;
     Rls.lm_file_name := "slides.pdf";
     Rls.lm_file_url := "https://files.example/slides.pdf";
     Rls.lm_file_type := Some "application/pdf";
     Rls.lm_file_size := Some 1024; Rls.lm_created_at := 0 |}.

Definition foreign_material : Rls.lesson_material :=
  {| Rls.lm_id := 0x200%N; Rls.lm_lesson_id := 0x22%N;
     Rls.lm_file_name := "notes.pdf";
     Rls.lm_file_url := "https://files.example/notes.pdf";
     Rls.lm_file_type := None;
     Rls.lm_file_size := None; Rls.lm_created_at := 0 |}.




Definition geometry : CourseInfo :=
  {| c_id := str "c2"; c_title := str "Geometry"; c_current_phase := 1 |}.

Definition store1 : Store :=
  {| tbl_assignments := [hw2; quiz; hw1];
     tbl_submissions := [(str "u1", graded_hw1); (str "u1", pending_hw1)] |}.

(** The index of the rows [hw1; quiz; hw2]. *)
Definition sampleIndex : gmap jsstring (list Assignment) :=
  {[ str "c1" := [hw1; hw2]; str "c2" := [quiz] ]}.

(** The dialog open on [hw1] with the answer typed in (and padded). *)
Definition answering : State :=
  {| assignments := {[ str "c1" := [hw1] ]};
     submissions := [];
     selectedAssignment := Some hw1;
     submissionText := str "  My answer " ++ [10%N];
     viewingFeedback := None |}.


(** The row [handleSubmit] sends for identity [u], selection [sel] and
    buffer [text]. *)
Definition submitted_row (u : User) (sel : Assignment) (text : jsstring)
    : SubmissionInsert :=
  {| i_assignment_id := a_id sel;
     i_student_id := u_id u;
     i_submission_text := trim text;
     i_status := str "pending" |}.

(** * Properties *)

(** ** Trimming *)

Section Trim.

Lemma trimStart_nil_iff (s : jsstring) :
  trimStart s = [] <-> forallb isTrimmed s = true.
Proof.
  induction s as [|c s IH]; simpl; [tauto|].
  destruct (isTrimmed c); simpl; [exact IH|].
  split; discriminate.
Qed.

Lemma forallb_rev {A} (f : A -> bool) (l : list A) :
  forallb f (rev l) = forallb f l.
Proof.
  induction l as [|x l IH]; simpl; [reflexivity|].
  rewrite forallb_app, IH. simpl.
  rewrite andb_true_r. apply andb_comm.
Qed.

Lemma trimStart_suffix (s : jsstring) :
  exists p, s = p ++ trimStart s /\ forallb isTrimmed p = true.
Proof.
  induction s as [|c s [p [Hs Hp]]]; simpl.
  - exists []. split; reflexivity.
  - destruct (isTrimmed c) eqn:Hc.
    + exists (c :: p). simpl. rewrite Hc, Hp. split; [congruence|reflexivity].
    + exists []. split; reflexivity.
Qed.

(** The trimmed buffer is empty exactly for the empty and the
    whitespace-only buffers. *)
Lemma trim_nil_iff (s : jsstring) :
  trim s = [] <-> forallb isTrimmed s = true.
Proof.
  unfold trim, trimEnd. split.
  - intros H.
    apply (f_equal (@rev N)) in H. rewrite rev_involutive in H. simpl in H.
    apply trimStart_nil_iff in H. rewrite forallb_rev in H.
    destruct (trimStart_suffix s) as [p [Hs Hp]].
    rewrite Hs, forallb_app, Hp, H. reflexivity.
  - intros H.
    assert (Hs : trimStart s = []) by (apply trimStart_nil_iff; exact H).
    rewrite Hs. reflexivity.
Qed.

Lemma truthy_trim (s : jsstring) :
  truthy_string (trim s) = true <-> trim s <> [].
Proof. destruct (trim s); simpl; split; congruence. Qed.

End Trim.

(** ** Running programs *)

Section Run.

Context {B : Type} (be : Backend B).

Lemma run_bind {A R} (p : Prog A) (f : A -> Prog R) (b : B) (st : State) :
  run be (bind p f) b st =
  let o1 := run be p b st in
  let o2 := run be (f (result o1)) (backend o1) (state o1) in
  {| trace := trace o1 ++ trace o2; backend := backend o2;
     state := state o2; result := result o2 |}.
Proof.
  revert b st. induction p as [a|X e k IH]; intros b st; simpl.
  - destruct (run be (f a) b st); reflexivity.
  - destruct (handle be e b st) as [[[o x] b'] st'].
    rewrite IH. simpl. rewrite app_assoc. reflexivity.
Qed.

(** The loader of the submission list, against any answer. *)
Lemma run_fetchSubmissions (u : User) (b : B) (st : State) :
  let r := on_select_submissions be b (u_id u) in
  run be (fetchSubmissions (Some u)) b st =
  {| trace := [ReqSelectSubmissions (u_id u)];
     backend := snd r;
     state := set_submissions (default [] (data (fst r))) st;
     result := tt |}.
Proof.
  simpl. destruct (on_select_submissions be b (u_id u)) as [r b'].
  reflexivity.
Qed.

(** The loader of the assignment index, against any answer. *)
Lemma run_fetchAssignments (courses : list CourseInfo) (b : B) (st : State) :
  let ids := List.map c_id courses in
  let r := on_select_assignments be b ids in
  run be (fetchAssignments courses) b st =
  match fst r with
  | ResponseFailure e =>
      {| trace := [ReqSelectAssignments ids;
                   Logged (str "Failed to fetch assignments:") e];
         backend := snd r; state := st; result := tt |}
  | ResponseSuccess rows =>
      match groupByCourse rows with
      | Normal grouped =>
          {| trace := [ReqSelectAssignments ids];
             backend := snd r;
             state := set_assignments grouped st;
             result := tt |}
      | Throws e =>
          {| trace := [ReqSelectAssignments ids; Rejected e];
             backend := snd r; state := st; result := tt |}
      end
  end.
Proof.
  simpl. unfold fetchAssignments. simpl.
  destruct (on_select_assignments be b (List.map c_id courses)) as [r b'].
  destruct r as [rows|e]; [|reflexivity].
  simpl. destruct (groupByCourse rows); reflexivity.
Qed.

End Run.

(** ** The submit handler *)

Section Submit.

Context {B : Type} (be : Backend B).

(** A valid call, against any answer to the insert. *)
Lemma run_handleSubmit_valid (u : User) (sel : Assignment) (b : B)
    (st : State) :
  selectedAssignment st = Some sel ->
  trim (submissionText st) <> [] ->
  let row := submitted_row u sel (submissionText st) in
  let r := on_insert be b row in
  run be (handleSubmit (Some u) st) b st =
  match fst r with
  | ResponseFailure _ =>
      {| trace := [ReqInsert row;
                   ToastedError (str "Failed to submit assignment")];
         backend := snd r; state := st; result := tt |}
  | ResponseSuccess _ =>
      let r' := on_select_submissions be (snd r) (u_id u) in
      {| trace := [ReqInsert row;
                   ToastedSuccess (str "Assignment submitted successfully!");
                   ReqSelectSubmissions (u_id u)];
         backend := snd r';
         state :=
           set_submissions (default [] (data (fst r')))
             (set_submissionText []
                (set_selectedAssignment None st));
         result := tt |}
  end.
Proof.
  intros Hsel Htext. unfold handleSubmit. rewrite Hsel.
  destruct (trim (submissionText st)) as [|c t] eqn:Ht; [congruence|].
  cbn [truthy_string negb]. unfold submitted_row. rewrite Ht.
  simpl.
  destruct (on_insert be b _) as [r b'].
  destruct r as [d|e]; simpl.
  - destruct (on_select_submissions be b' (u_id u)) as [r' b''].
    reflexivity.
  - reflexivity.
Qed.

(** C1: a call with an identity, a selected assignment and a buffer
    that is non-empty after trimming issues exactly one insert, whose
    row carries the trimmed buffer, status "pending", the selected
    assignment's id and the identity's id. *)
Theorem handleSubmit_valid_inserts_once (u : User) (sel : Assignment)
    (b : B) (st : State) :
  selectedAssignment st = Some sel ->
  trim (submissionText st) <> [] ->
  List.filter is_insert (trace (run be (handleSubmit (Some u) st) b st)) =
  [ReqInsert {| i_assignment_id := a_id sel;
                i_student_id := u_id u;
                i_submission_text := trim (submissionText st);
                i_status := str "pending" |}].
Proof.
  intros Hsel Htext.
  rewrite (run_handleSubmit_valid u sel b st Hsel Htext).
  cbv zeta. destruct (fst (on_insert be b _)); reflexivity.
Qed.

(** C2: a call without identity, without selected assignment, or with
    a buffer that trims to the empty string issues no request at all
    and surfaces the validation error, whatever the rest of the state. *)
Theorem handleSubmit_invalid_rejected (user : option User) (b : B)
    (st : State) :
  user = None \/ selectedAssignment st = None
    \/ trim (submissionText st) = [] ->
  let out := run be (handleSubmit user st) b st in
  trace out = [ToastedError (str "Please enter your submission")]
  /\ List.filter is_request (trace out) = []
  /\ state out = st
  /\ backend out = b.
Proof.
  intros H. unfold handleSubmit.
  destruct user as [u|]; [destruct (selectedAssignment st) as [sel|]|].
  - destruct H as [H|[H|H]]; try discriminate.
    rewrite H. simpl. auto.
  - simpl. auto.
  - destruct (selectedAssignment st); simpl; auto.
Qed.

(** C3, as the code has it: after a successful insert the confirmation
    is surfaced, the selection is cleared, the buffer is reset, and the
    submission fetch is issued again; the assignment fetch is not, and
    the assignment index keeps its value. *)
Theorem handleSubmit_success (u : User) (sel : Assignment) (b : B)
    (st : State) (d : unit) :
  selectedAssignment st = Some sel ->
  trim (submissionText st) <> [] ->
  fst (on_insert be b (submitted_row u sel (submissionText st)))
    = ResponseSuccess d ->
  let out := run be (handleSubmit (Some u) st) b st in
  List.filter is_toast (trace out)
    = [ToastedSuccess (str "Assignment submitted successfully!")]
  /\ selectedAssignment (state out) = None
  /\ submissionText (state out) = []
  /\ List.filter is_submission_fetch (trace out)
       = [ReqSelectSubmissions (u_id u)]
  /\ List.filter is_assignment_fetch (trace out) = []
  /\ assignments (state out) = assignments st.
Proof.
  intros Hsel Htext Hok.
  rewrite (run_handleSubmit_valid u sel b st Hsel Htext).
  cbv zeta. rewrite Hok. simpl. auto 10.
Qed.

(** C4: when the insert fails, the error is surfaced and the component
    state is exactly what it was: selection, buffer, assignment index
    and submission list. *)
Theorem handleSubmit_failure_keeps_state (u : User) (sel : Assignment)
    (b : B) (st : State) (e : PostgrestError) :
  selectedAssignment st = Some sel ->
  trim (submissionText st) <> [] ->
  fst (on_insert be b (submitted_row u sel (submissionText st)))
    = ResponseFailure e ->
  let out := run be (handleSubmit (Some u) st) b st in
  trace out = [ReqInsert (submitted_row u sel (submissionText st));
               ToastedError (str "Failed to submit assignment")]
  /\ state out = st
  /\ selectedAssignment (state out) = Some sel
  /\ submissionText (state out) = submissionText st
  /\ assignments (state out) = assignments st
  /\ submissions (state out) = submissions st.
Proof.
  intros Hsel Htext Hfail.
  rewrite (run_handleSubmit_valid u sel b st Hsel Htext).
  cbv zeta. rewrite Hfail. simpl. auto 10.
Qed.

End Submit.

(** The handler on the sample dialog: the padded answer is trimmed and
    stored once. *)
Lemma handleSubmit_valid_inserts_once_witness :
  selectedAssignment answering = Some hw1
  /\ trim (submissionText answering) <> []
  /\ List.filter is_insert
       (trace (run memoryBackend (handleSubmit (Some alice) answering)
                 store0 answering))
     = [ReqInsert {| i_assignment_id := a_id hw1;
                     i_student_id := u_id alice;
                     i_submission_text := trim (submissionText answering);
                     i_status := str "pending" |}].
Proof.
  assert (H1 : selectedAssignment answering = Some hw1) by reflexivity.
  assert (H2 : trim (submissionText answering) <> [])
    by (vm_compute; discriminate).
  split; [exact H1|]. split; [exact H2|].
  exact (handleSubmit_valid_inserts_once memoryBackend alice hw1 store0
           answering H1 H2).
Defined.

(** Without identity the sample dialog is rejected. *)
Lemma handleSubmit_invalid_rejected_witness :
  let out := run memoryBackend (handleSubmit None answering) store0 answering in
  trace out = [ToastedError (str "Please enter your submission")]
  /\ List.filter is_request (trace out) = []
  /\ state out = answering
  /\ backend out = store0.
Proof.
  apply (handleSubmit_invalid_rejected memoryBackend None store0 answering).
  left. reflexivity.
Defined.

Lemma handleSubmit_success_witness :
  let out := run memoryBackend (handleSubmit (Some alice) answering)
               store0 answering in
  List.filter is_toast (trace out)
    = [ToastedSuccess (str "Assignment submitted successfully!")]
  /\ selectedAssignment (state out) = None
  /\ submissionText (state out) = []
  /\ List.filter is_submission_fetch (trace out)
       = [ReqSelectSubmissions (u_id alice)]
  /\ List.filter is_assignment_fetch (trace out) = []
  /\ assignments (state out) = assignments answering.
Proof.
  apply (handleSubmit_success memoryBackend alice hw1 store0 answering tt).
  - reflexivity.
  - vm_compute; discriminate.
  - reflexivity.
Defined.

(** C3 as stated fails: on the sample dialog the insert succeeds and the
    handler goes on without issuing the assignment fetch. *)
Lemma handleSubmit_success_no_assignment_fetch :
  let row := submitted_row alice hw1 (submissionText answering) in
  let out := run memoryBackend (handleSubmit (Some alice) answering)
               store0 answering in
  fst (on_insert memoryBackend store0 row) = ResponseSuccess tt
  /\ In (ReqInsert row) (trace out)
  /\ ~ (existsb is_assignment_fetch (trace out) = true
        /\ existsb is_submission_fetch (trace out) = true).
Proof.
  vm_compute. split; [reflexivity|]. split; [left; reflexivity|].
  intros [H _]. discriminate H.
Qed.

Lemma handleSubmit_failure_keeps_state_witness :
  let out := run brokenBackend (handleSubmit (Some alice) answering)
               tt answering in
  trace out = [ReqInsert (submitted_row alice hw1 (submissionText answering));
               ToastedError (str "Failed to submit assignment")]
  /\ state out = answering
  /\ selectedAssignment (state out) = Some hw1
  /\ submissionText (state out) = submissionText answering
  /\ assignments (state out) = assignments answering
  /\ submissions (state out) = submissions answering.
Proof.
  apply (handleSubmit_failure_keeps_state brokenBackend alice hw1 tt
           answering unavailable).
  - reflexivity.
  - vm_compute; discriminate.
  - reflexivity.
Defined.

(** ** Grouping by course *)

Section Grouping.

Implicit Types (g : gmap jsstring (list Assignment)).
Implicit Types (rows l : list Assignment) (k : jsstring).

Lemma own_keys_plain_empty : own_keys_plain ∅.
Proof. intros k [l Hl]. rewrite lookup_empty in Hl. discriminate. Qed.

(** One turn: it throws exactly on an inherited name that no own
    property shadows, and otherwise appends to the course's array. *)
Lemma group_step_cases g (a : Assignment) :
  match group_step g a with
  | Normal g' =>
      (is_Some (g !! a_course_id a) \/ plainKey (a_course_id a))
      /\ forall k, g' !! k =
           if decide (a_course_id a = k)
           then Some (default [] (g !! k) ++ [a])
           else g !! k
  | Throws _ => g !! a_course_id a = None /\ ~ plainKey (a_course_id a)
  end.
Proof.
  unfold group_step, getMember, plainKey.
  destruct (g !! a_course_id a) as [l|] eqn:E; cbn [truthy_member negb].
  - rewrite E. split; [left; eauto|]. intros k.
    rewrite lookup_alter. case_decide; [subst k; rewrite E|]; reflexivity.
  - destruct (inheritedMember (a_course_id a)) as [m|] eqn:Em;
      cbn [truthy_member negb].
    + rewrite E. split; [reflexivity|discriminate].
    + rewrite lookup_insert_eq. split; [right; reflexivity|]. intros k.
      rewrite lookup_alter. case_decide.
      * subst k. rewrite lookup_insert_eq, E. reflexivity.
      * rewrite lookup_insert_ne by assumption. reflexivity.
Qed.

Lemma rowsOfCourse_cons (a : Assignment) rows k :
  rowsOfCourse k (a :: rows) =
  if decide (a_course_id a = k)
  then a :: rowsOfCourse k rows
  else rowsOfCourse k rows.
Proof.
  unfold rowsOfCourse. simpl.
  case_decide.
  - rewrite bool_decide_eq_true_2 by assumption. reflexivity.
  - rewrite bool_decide_eq_false_2 by assumption. reflexivity.
Qed.

(** The loop from an accumulator without inherited names among its own
    keys: it completes exactly when no row's course id is an inherited
    name, and then each course's array has grown by the course's rows,
    in order. *)
Lemma forEach_group_spec rows g :
  own_keys_plain g ->
  match forEach_group rows g with
  | Normal g' =>
      List.Forall (fun a => plainKey (a_course_id a)) rows
      /\ forall k, g' !! k =
           match g !! k, rowsOfCourse k rows with
           | None, [] => None
           | o, l => Some (default [] o ++ l)
           end
  | Throws _ =>
      List.Exists (fun a => ~ plainKey (a_course_id a)) rows
  end.
Proof.
  revert g. induction rows as [|a rows IH]; intros g Hinv.
  - simpl. split; [constructor|]. intros k.
    destruct (g !! k); simpl; [rewrite app_nil_r|]; reflexivity.
  - cbn [forEach_group].
    pose proof (group_step_cases g a) as Hstep.
    destruct (group_step g a) as [g1|e].
    + destruct Hstep as [Hkey Hg1].
      assert (Hplain : plainKey (a_course_id a))
        by (destruct Hkey as [Hk|Hk]; [apply Hinv, Hk|exact Hk]).
      assert (Hinv1 : own_keys_plain g1).
      { intros k Hk. rewrite Hg1 in Hk.
        destruct (decide (a_course_id a = k)) as [<-|_];
          [exact Hplain|apply Hinv, Hk]. }
      specialize (IH g1 Hinv1).
      destruct (forEach_group rows g1) as [g'|e'].
      * destruct IH as [Hall Hg']. split; [constructor; assumption|].
        intros k. rewrite Hg', Hg1, rowsOfCourse_cons.
        case_decide.
        -- simpl. rewrite <- app_assoc. simpl.
           destruct (g !! k); reflexivity.
        -- reflexivity.
      * apply List.Exists_cons_tl, IH.
    + apply List.Exists_cons_hd. apply Hstep.
Qed.

(** Grouping, from [{}]. *)
Lemma groupByCourse_spec rows :
  match groupByCourse rows with
  | Normal grouped =>
      List.Forall (fun a => plainKey (a_course_id a)) rows
      /\ forall k, grouped !! k =
           match rowsOfCourse k rows with
           | [] => None
           | l => Some l
           end
  | Throws _ =>
      List.Exists (fun a => ~ plainKey (a_course_id a)) rows
  end.
Proof.
  unfold groupByCourse.
  pose proof (forEach_group_spec rows ∅ own_keys_plain_empty) as H.
  destruct (forEach_group rows ∅) as [grouped|e]; [|exact H].
  destruct H as [Hall Hg]. split; [exact Hall|]. intros k.
  rewrite Hg, lookup_empty. destruct (rowsOfCourse k rows); reflexivity.
Qed.

(** Grouping completes exactly when no course id is an inherited name. *)
Lemma groupByCourse_Normal_iff rows :
  (exists grouped, groupByCourse rows = Normal grouped)
  <-> List.Forall (fun a => plainKey (a_course_id a)) rows.
Proof.
  pose proof (groupByCourse_spec rows) as H.
  destruct (groupByCourse rows) as [grouped|e].
  - split; [intros _; apply H|eauto].
  - split; [intros [? ?]; discriminate|].
    intros Hall. apply List.Exists_exists in H.
    destruct H as (a & Ha & Hn). rewrite List.Forall_forall in Hall.
    destruct (Hn (Hall a Ha)).
Qed.

Lemma groupByCourse_lookup rows grouped k :
  groupByCourse rows = Normal grouped ->
  grouped !! k =
  match rowsOfCourse k rows with
  | [] => None
  | l => Some l
  end.
Proof.
  intros H. pose proof (groupByCourse_spec rows) as Hs.
  rewrite H in Hs. apply Hs.
Qed.

Lemma rowsOfCourse_nil_iff rows k :
  rowsOfCourse k rows = [] <-> k ∉ a_course_id <$> rows.
Proof.
  induction rows as [|a rows IH].
  - split; [intros _; apply not_elem_of_nil|reflexivity].
  - rewrite rowsOfCourse_cons, fmap_cons, not_elem_of_cons.
    case_decide; split.
    + discriminate.
    + intros [Hne _]. congruence.
    + intros H'. split; [congruence|apply IH, H'].
    + intros [_ H']. apply IH, H'.
Qed.

Lemma groupByCourse_dom rows grouped :
  groupByCourse rows = Normal grouped ->
  dom grouped = list_to_set (a_course_id <$> rows).
Proof.
  intros Hg. apply set_eq. intros k.
  rewrite elem_of_dom, elem_of_list_to_set, (groupByCourse_lookup _ _ k Hg).
  destruct (rowsOfCourse k rows) as [|a l] eqn:E.
  - apply rowsOfCourse_nil_iff in E. split; [intros [? ?]; discriminate|tauto].
  - split; [intros _|eauto].
    destruct (decide (k ∈ a_course_id <$> rows)) as [|Hn]; [assumption|].
    apply rowsOfCourse_nil_iff in Hn. congruence.
Qed.

#[local] Instance by_phase_trans : Transitive by_phase.
Proof. unfold by_phase. intros x y z. lia. Qed.

Lemma Sorted_rowsOfCourse rows k :
  Sorted by_phase rows -> Sorted by_phase (rowsOfCourse k rows).
Proof.
  intros H. apply Sorted_StronglySorted in H; [|apply _].
  apply StronglySorted_Sorted.
  induction H as [|a rows Hs IH Hall].
  - constructor.
  - rewrite rowsOfCourse_cons. case_decide; [|exact IH].
    constructor; [exact IH|].
    unfold rowsOfCourse. rewrite List.Forall_forall in *.
    intros x Hx. apply List.filter_In in Hx. apply Hall, Hx.
Qed.

(** When the assignment fetch answers with rows ordered by phase number
    and no row's course id names a member of [Object.prototype], the
    index the loader stores has as keys exactly the course ids occurring
    in the rows, and each of its lists is ordered by phase number (it is
    the course's rows in the order fetched). *)
Theorem fetchAssignments_groups_by_course {B} (be : Backend B)
    (courses : list CourseInfo) (b : B) (st : State) rows :
  fst (on_select_assignments be b (List.map c_id courses))
    = ResponseSuccess rows ->
  List.Forall (fun a => plainKey (a_course_id a)) rows ->
  Sorted by_phase rows ->
  let grouped := assignments (state (run be (fetchAssignments courses) b st)) in
  dom grouped = list_to_set (a_course_id <$> rows)
  /\ (forall k l, grouped !! k = Some l ->
        Sorted by_phase l /\ l = rowsOfCourse k rows).
Proof.
  intros Hok Hplain Hsorted. rewrite run_fetchAssignments. cbv zeta.
  rewrite Hok.
  apply groupByCourse_Normal_iff in Hplain. destruct Hplain as [grouped Hg].
  rewrite Hg. simpl. split.
  - apply groupByCourse_dom, Hg.
  - intros k l. rewrite (groupByCourse_lookup _ _ k Hg). intros Hl.
    assert (l = rowsOfCourse k rows) as ->
      by (destruct (rowsOfCourse k rows); congruence).
    split; [apply Sorted_rowsOfCourse, Hsorted|reflexivity].
Qed.


End Grouping.


(** The loader on the sample store: two courses, three rows. *)
Lemma fetchAssignments_groups_by_course_witness :
  let rows := [hw1; quiz; hw2] in
  let grouped :=
    assignments (state (run memoryBackend
                          (fetchAssignments [algebra; geometry])
                          store1 initialState)) in
  Sorted by_phase rows
  /\ dom grouped = list_to_set (a_course_id <$> rows)
  /\ (forall k l, grouped !! k = Some l ->
        Sorted by_phase l /\ l = rowsOfCourse k rows).
Proof.
  assert (Hs : Sorted by_phase [hw1; quiz; hw2]).
  { repeat constructor; unfold by_phase; simpl; lia. }
  split; [exact Hs|].
  apply (fetchAssignments_groups_by_course memoryBackend
           [algebra; geometry] store1 initialState [hw1; quiz; hw2]).
  - reflexivity.
  - repeat constructor.
  - exact Hs.
Defined.

(** ** The view *)

Section ViewModel.

(** [getSubmission] yields the first entry for the assignment: nothing
    before it in the list matches. *)
Lemma getSubmission_first (subs : list Submission) (id : jsstring)
    (s : Submission) :
  getSubmission subs id = Some s <->
  exists pre post,
    subs = pre ++ s :: post
    /\ s_assignment_id s = id
    /\ List.Forall (fun s' => s_assignment_id s' <> id) pre.
Proof.
  unfold getSubmission. induction subs as [|x subs IH]; simpl.
  - split; [discriminate|].
    intros (pre & post & H & _). destruct pre; discriminate.
  - case_bool_decide as Hx.
    + split.
      * intros [= ->]. exists [], subs. auto.
      * intros (pre & post & H & Hid & Hpre).
        destruct pre as [|y pre]; simpl in H.
        -- congruence.
        -- injection H as -> _. apply List.Forall_inv in Hpre. contradiction.
    + rewrite IH. split.
      * intros (pre & post & -> & Hid & Hpre).
        exists (x :: pre), post. auto.
      * intros (pre & post & H & Hid & Hpre).
        destruct pre as [|y pre]; simpl in H.
        -- congruence.
        -- injection H as -> ->. apply List.Forall_inv_tail in Hpre. eauto.
Qed.

Lemma getSubmission_None (subs : list Submission) (id : jsstring) :
  getSubmission subs id = None <->
  List.Forall (fun s => s_assignment_id s <> id) subs.
Proof.
  unfold getSubmission. induction subs as [|x subs IH]; simpl.
  - split; auto.
  - case_bool_decide as Hx.
    + split; [discriminate|]. intros H. apply List.Forall_inv in H.
      contradiction.
    + rewrite IH. split.
      * intros H. constructor; assumption.
      * intros H. apply List.Forall_inv_tail in H. exact H.
Qed.

(** C6: the row of an assignment is in exactly one of four states,
    fixed by the first submission in the list that carries its id:
    none, "pending", "graded", or any other status. *)
Theorem renderAssignment_four_states (subs : list Submission)
    (a : Assignment) :
  let row := renderAssignment subs a in
  match List.find (fun s => bool_decide (s_assignment_id s = a_id a)) subs with
  | None =>
      row_badge row = BadgeNotSubmitted
      /\ row_submit row = Some a
      /\ row_view_feedback row = None
      /\ row_awaiting row = false
  | Some s =>
      if decide (s_status s = str "pending") then
        row_badge row = BadgePending
        /\ row_submit row = None
        /\ row_view_feedback row = None
        /\ row_awaiting row = true
      else if decide (s_status s = str "graded") then
        row_badge row = BadgeGraded
        /\ row_submit row = None
        /\ row_view_feedback row = Some s
        /\ row_awaiting row = false
      else
        row_badge row = BadgeStatus (s_status s)
        /\ row_submit row = None
        /\ row_view_feedback row = None
        /\ row_awaiting row = false
  end.
Proof.
  unfold renderAssignment, getSubmission, getStatusBadge. cbn [row_badge
    row_submit row_view_feedback row_awaiting].
  destruct (List.find _ subs) as [s|]; simpl; [|auto].
  destruct (decide (s_status s = str "pending")) as [Hp|Hp].
  - rewrite Hp. auto.
  - rewrite (bool_decide_eq_false_2 _ Hp).
    destruct (decide (s_status s = str "graded")) as [Hg|Hg].
    + rewrite Hg. auto.
    + rewrite (bool_decide_eq_false_2 _ Hg). auto.
Qed.

(** For a course id that names no member of [Object.prototype] and any
    state, the completed count is a number, at most the assignment
    count; it counts the course's assignments that have some submission,
    so an assignment with several submissions counts once; both counts
    are 0 when the course id is absent from the index. *)
Theorem completed_count_bounds (st : State) (courseId : jsstring) :
  plainKey courseId ->
  exists n,
    getCompletedCountForCourse st courseId = Normal n
    /\ (0 <= n <= getAssignmentCountForCourse st courseId)%nat
    /\ n = length (List.filter
                     (fun a => existsb
                        (fun s => bool_decide (s_assignment_id s = a_id a))
                        (submissions st))
                     (default [] (assignments st !! courseId)))
    /\ (assignments st !! courseId = None ->
        n = 0%nat /\ getAssignmentCountForCourse st courseId = 0%nat).
Proof.
  unfold plainKey. intros Hplain.
  assert (Hf : forall l,
            length (List.filter
                      (fun a => truthy (getSubmission (submissions st) (a_id a)))
                      l)
            = length (List.filter
                        (fun a => existsb
                           (fun s => bool_decide (s_assignment_id s = a_id a))
                           (submissions st)) l)).
  { intros l. f_equal. apply List.filter_ext. intros a.
    unfold getSubmission.
    induction (submissions st) as [|s subs IH]; simpl; [reflexivity|].
    destruct (bool_decide (s_assignment_id s = a_id a)); simpl;
      [reflexivity|exact IH]. }
  unfold getCompletedCountForCourse, getAssignmentCountForCourse, getMember.
  destruct (assignments st !! courseId) as [l|];
    [|rewrite Hplain]; cbn [truthy_member memberLength default].
  - eexists. split; [reflexivity|]. split; [|split].
    + split; [lia|].
      etransitivity; [apply List.filter_length_le|].
      destruct (length l); simpl; lia.
    + apply Hf.
    + discriminate.
  - exists 0%nat. repeat split; auto.
Qed.


(** Two submissions for [hw1], one for nothing else: one of the two
    assignments of the course is completed; an unknown course has no
    counts. *)
Lemma completed_count_bounds_witness :
  let st := state (run memoryBackend (loadData [algebra; geometry] (Some alice))
                     store1 initialState) in
  submissions st = [graded_hw1; pending_hw1]
  /\ getCompletedCountForCourse st (str "c1") = Normal 1%nat
  /\ getAssignmentCountForCourse st (str "c1") = 2%nat
  /\ plainKey (str "c9")
  /\ assignments st !! str "c9" = None
  /\ getCompletedCountForCourse st (str "c9") = Normal 0%nat
  /\ getAssignmentCountForCourse st (str "c9") = 0%nat.
Proof.
  cbv zeta.
  set (st := state (run memoryBackend (loadData [algebra; geometry] (Some alice))
                     store1 initialState)).
  assert (Hplain : plainKey (str "c9")) by reflexivity.
  assert (Habsent : assignments st !! str "c9" = None) by (vm_compute; reflexivity).
  destruct (completed_count_bounds st (str "c9") Hplain)
    as (n & Hn & _ & _ & H0).
  specialize (H0 Habsent). destruct H0 as [-> Ht].
  split; [vm_compute; reflexivity|].
  split; [vm_compute; reflexivity|].
  split; [vm_compute; reflexivity|].
  split; [exact Hplain|]. split; [exact Habsent|].
  split; [exact Hn|exact Ht].
Defined.

End ViewModel.

(** ** The data loader *)

Section Loader.

Context {B : Type} (be : Backend B).

(** C7, as the code has it: with an empty course list or without
    identity the effect issues no request and leaves the state alone; the
    view shows the empty-state message when the course list is empty,
    and the course list otherwise, identity or not. *)
Theorem loadData_guarded (courses : list CourseInfo) (user : option User)
    (b : B) (st : State) :
  courses = [] \/ user = None ->
  let out := run be (loadData courses user) b st in
  trace out = []
  /\ state out = st
  /\ (courses = [] ->
      view_courses (render courses st)
        = EmptyState (str "Enroll in a course to see assignments"))
  /\ (courses <> [] ->
      view_courses (render courses st)
        = Accordion (List.map (renderCourse st) courses)).
Proof.
  intros H. unfold loadData.
  assert (Hg : (0 <? length courses)%nat && truthy user = false).
  { destruct H as [->| ->]; [reflexivity|apply andb_false_r]. }
  rewrite Hg. simpl.
  split; [reflexivity|]. split; [reflexivity|]. split.
  - intros ->. reflexivity.
  - intros Hne. destruct courses; [congruence|reflexivity].
Qed.

(** C8: a failed read is not retried and raises no notification.  A
    failed assignment fetch logs the error and leaves the state (so the
    assignment index) as it was; a failed submission fetch sets the
    submission list to empty and logs nothing. *)
Theorem read_failures_silent (courses : list CourseInfo) (u : User)
    (b : B) (st : State) (e : PostgrestError) :
  (fst (on_select_assignments be b (List.map c_id courses))
     = ResponseFailure e ->
   let out := run be (fetchAssignments courses) b st in
   trace out = [ReqSelectAssignments (List.map c_id courses);
                Logged (str "Failed to fetch assignments:") e]
   /\ List.filter is_toast (trace out) = []
   /\ assignments (state out) = assignments st
   /\ state out = st)
  /\
  (fst (on_select_submissions be b (u_id u)) = ResponseFailure e ->
   let out := run be (fetchSubmissions (Some u)) b st in
   trace out = [ReqSelectSubmissions (u_id u)]
   /\ List.filter is_toast (trace out) = []
   /\ submissions (state out) = []
   /\ state out = set_submissions [] st).
Proof.
  split; intros Hfail.
  - rewrite run_fetchAssignments. cbv zeta. rewrite Hfail. simpl. auto.
  - rewrite run_fetchSubmissions. cbv zeta. rewrite Hfail. simpl. auto.
Qed.

End Loader.

(** Signed out with one course: nothing is fetched and the course list
    is rendered. *)
Lemma loadData_guarded_witness :
  let out := run memoryBackend (loadData [algebra] None) store0 initialState in
  trace out = []
  /\ state out = initialState
  /\ ([algebra] = [] ->
      view_courses (render [algebra] initialState)
        = EmptyState (str "Enroll in a course to see assignments"))
  /\ ([algebra] <> [] ->
      view_courses (render [algebra] initialState)
        = Accordion (List.map (renderCourse initialState) [algebra])).
Proof.
  apply (loadData_guarded memoryBackend [algebra] None store0 initialState).
  right. reflexivity.
Defined.

(** C7 as stated fails: without identity and with one course, the guard
    of the claim holds and nothing is fetched, yet the view is the
    course list, not the empty-state message. *)
Lemma absent_identity_renders_course_list :
  let courses := [algebra] in
  let user : option User := None in
  (courses = [] \/ user = None)
  /\ trace (run memoryBackend (loadData courses user) store0 initialState) = []
  /\ ~ (exists msg,
          view_courses (render courses initialState) = EmptyState msg).
Proof.
  cbv zeta. split; [right; reflexivity|]. split; [reflexivity|].
  intros [msg H]. vm_compute in H. discriminate H.
Qed.

(** Both reads failing; the state had a submission before. *)
Lemma read_failures_silent_witness :
  let st := set_submissions [graded_hw1] answering in
  (let out := run brokenBackend (fetchAssignments [algebra]) tt st in
   trace out = [ReqSelectAssignments (List.map c_id [algebra]);
                Logged (str "Failed to fetch assignments:") unavailable]
   /\ List.filter is_toast (trace out) = []
   /\ assignments (state out) = assignments st
   /\ state out = st)
  /\
  (let out := run brokenBackend (fetchSubmissions (Some alice)) tt st in
   trace out = [ReqSelectSubmissions (u_id alice)]
   /\ List.filter is_toast (trace out) = []
   /\ submissions (state out) = []
   /\ state out = set_submissions [] st).
Proof.
  cbv zeta.
  destruct (read_failures_silent brokenBackend [algebra] alice tt
              (set_submissions [graded_hw1] answering) unavailable)
    as [Ha Hs].
  split; [apply Ha|apply Hs]; reflexivity.
Defined.

(** ** Storage policies *)

Section StoragePolicies.

Import Sql.

Lemma holds_sql_and (a b : sqlbool) :
  holds (sql_and a b) = holds a && holds b.
Proof. destruct a as [[|]|], b as [[|]|]; reflexivity. Qed.

Lemma holds_sql_eq {A} `{EqDecision A} (a b : option A) :
  holds (sql_eq a b) = true <-> exists x, a = Some x /\ b = Some x.
Proof.
  destruct a as [x|], b as [y|]; simpl.
  - case_bool_decide as E; simpl.
    + subst y. split; [eauto|reflexivity].
    + split; [discriminate|]. intros (z & [= ->] & [= ->]). contradiction.
  - split; [discriminate|]. intros (z & _ & Hz). discriminate.
  - split; [discriminate|]. intros (z & Hz & _). discriminate.
  - split; [discriminate|]. intros (z & Hz & _). discriminate.
Qed.

Lemma holds_sql_eq_refl {A} `{EqDecision A} (x : A) :
  holds (sql_eq (Some x) (Some x)) = true.
Proof. apply holds_sql_eq. eauto. Qed.

(** What both student policies ask of the path. *)
Lemma own_folder (u : uuid) (o : object) :
  holds (folder_is o 1 (Some "submissions"))
    && holds (folder_is o 2 (Some (uuid_text u))) = true ->
  subscript (foldername (name o)) 1 = Some "submissions"
  /\ subscript (foldername (name o)) 2 = Some (uuid_text u).
Proof.
  rewrite andb_true_iff. unfold folder_is. rewrite !holds_sql_eq.
  intros [(x & Hx & [= <-]) (y & Hy & [= <-])]. auto.
Qed.

(** C9: for an authenticated identity without the admin role and any
    object of the [assignments] bucket, the policies let the identity
    insert the object, and the student policy lets it read the object,
    only if the path's first folder is "submissions" and its second
    folder is the identity's own id. *)
Theorem student_access_own_folder_only (env : Env) (u : uuid) (o : object) :
  auth_uid env = Some u ->
  has_role env (Some u) "admin" = false ->
  bucket_id o = "assignments" ->
  (may_insert storage_policies env o = true ->
   subscript (foldername (name o)) 1 = Some "submissions"
   /\ subscript (foldername (name o)) 2 = Some (uuid_text u))
  /\
  (passes (pol_using students_can_view) env o = true ->
   subscript (foldername (name o)) 1 = Some "submissions"
   /\ subscript (foldername (name o)) 2 = Some (uuid_text u)).
Proof.
  intros Hu Hrole Hbucket. split.
  - unfold may_insert, storage_policies.
    cbn [existsb applies pol_for students_can_upload students_can_view
         tutors_can_view admins_manage_assignment_files
         anyone_can_view_materials tutors_can_upload_materials
         tutors_can_delete_materials admins_manage_material_files
         check_of pol_with_check pol_using passes andb orb].
    replace (bool_decide (INSERT = SELECT)) with false by reflexivity.
    replace (bool_decide (INSERT = DELETE)) with false by reflexivity.
    replace (bool_decide (INSERT = INSERT)) with true by reflexivity.
    cbn [andb orb]. unfold bucket_is.
    rewrite !holds_sql_and, Hbucket, Hu, Hrole.
    cbn [sql_eq holds is_not_null andb orb fmap option_fmap option_map].
    rewrite !orb_false_r.
    replace (bool_decide ("assignments" = "assignments")) with true
      by reflexivity.
    cbn [andb]. apply own_folder.
  - cbn [passes pol_using students_can_view].
    rewrite !holds_sql_and, Hu.
    cbn [fmap option_fmap option_map].
    rewrite andb_true_iff. intros [_ H]. apply own_folder, H.
Qed.

(** The other direction, for the record: under the own folder of the
    [assignments] bucket an authenticated identity may insert. *)
Lemma student_may_insert_own_folder (env : Env) (u : uuid) (o : object) :
  auth_uid env = Some u ->
  bucket_id o = "assignments" ->
  subscript (foldername (name o)) 1 = Some "submissions" ->
  subscript (foldername (name o)) 2 = Some (uuid_text u) ->
  may_insert storage_policies env o = true.
Proof.
  intros Hu Hb H1 H2. unfold may_insert, storage_policies.
  cbn [existsb]. apply orb_true_iff. left.
  cbn [applies pol_for students_can_upload check_of pol_with_check passes].
  rewrite bool_decide_eq_true_2 by reflexivity. cbn [andb].
  unfold bucket_is, folder_is.
  rewrite !holds_sql_and, Hb, Hu, H1, H2.
  cbn [fmap option_fmap option_map]. rewrite !holds_sql_eq_refl.
  reflexivity.
Qed.

End StoragePolicies.

(** A student uploading, then reading, an essay under the own folder. *)
Lemma student_access_own_folder_only_witness :
  Sql.may_insert Sql.storage_policies student_env essay = true
  /\ Sql.passes (Sql.pol_using Sql.students_can_view) student_env essay = true
  /\ Sql.subscript (Sql.foldername (Sql.name essay)) 1 = Some "submissions"
  /\ Sql.subscript (Sql.foldername (Sql.name essay)) 2
     = Some (Sql.uuid_text 0x123e4567e89b12d3a456426614174000%N).
Proof.
  assert (Hi : Sql.may_insert Sql.storage_policies student_env essay = true)
    by (vm_compute; reflexivity).
  assert (Hv : Sql.passes (Sql.pol_using Sql.students_can_view)
                 student_env essay = true)
    by (vm_compute; reflexivity).
  split; [exact Hi|]. split; [exact Hv|].
  destruct (student_access_own_folder_only student_env
              0x123e4567e89b12d3a456426614174000%N essay)
    as [Hins _]; [reflexivity|reflexivity|reflexivity|].
  exact (Hins Hi).
Defined.

(** ** The loaders together, and the scenarios of the specification *)

(** The two loaders write different state cells: the order in which
    their answers are applied does not matter. *)
Lemma loaders_write_disjoint_cells (v : gmap jsstring (list Assignment))
    (w : list Submission) (st : State) :
  set_submissions w (set_assignments v st)
  = set_assignments v (set_submissions w st).
Proof. reflexivity. Qed.

(** Each loader awaits its one request and nothing after it, which is
    what [startBoth] relies on. *)
Lemma loaders_await_once (courses : list CourseInfo) (u : User) :
  (exists k,
     fetchAssignments courses = Vis (SelectAssignments (List.map c_id courses)) k
     /\ forall r, awaitFree (k r))
  /\ (exists k,
        fetchSubmissions (Some u) = Vis (SelectSubmissions (u_id u)) k
        /\ forall r, awaitFree (k r)).
Proof.
  split; eexists; (split; [reflexivity|]); intros r; simpl.
  - destruct (error r); [|destruct (groupByCourse _)];
      (apply awaitFree_Vis; [reflexivity|intros []; apply awaitFree_Ret]).
  - apply awaitFree_Vis; [reflexivity|intros []; apply awaitFree_Ret].
Qed.

(** The effect with courses and an identity, against any answers and
    either order of arrival: both requests go out first; what the
    assignment answer leads to (a log line, a rejection, or nothing to
    see) follows; the state is the same whichever answer is handled
    first. *)
Lemma run_loadData {B} (be : Backend B) (c : CourseInfo)
    (courses : list CourseInfo) (u : User) (b : B) (st : State) :
  let ids := List.map c_id (c :: courses) in
  let ra := on_select_assignments be b ids in
  let rs := on_select_submissions be (snd ra) (u_id u) in
  let ar := on_arrival be (snd rs) in
  run be (loadData (c :: courses) (Some u)) b st =
  {| trace :=
       ReqSelectAssignments ids :: ReqSelectSubmissions (u_id u) ::
       match fst ra with
       | ResponseFailure e =>
           [Logged (str "Failed to fetch assignments:") e]
       | ResponseSuccess rows =>
           match groupByCourse rows with
           | Normal _ => []
           | Throws e => [Rejected e]
           end
       end;
     backend := snd ar;
     state :=
       set_submissions (default [] (data (fst rs)))
         match fst ra with
         | ResponseFailure _ => st
         | ResponseSuccess rows =>
             match groupByCourse rows with
             | Normal grouped => set_assignments grouped st
             | Throws _ => st
             end
         end;
     result := tt |}.
Proof.
  cbv zeta. unfold loadData. cbn [length Nat.ltb Nat.leb truthy andb].
  unfold startBoth, fetchAssignments, fetchSubmissions.
  cbn [bind trigger upToAwait awaited run handle].
  destruct (on_select_assignments be b _) as [ra b1].
  cbn [fst snd].
  destruct (on_select_submissions be b1 (u_id u)) as [rs b2].
  cbn [fst snd].
  destruct (on_arrival be b2) as [first b3].
  cbn [fst snd].
  destruct ra as [rows|e]; simpl;
    [destruct (groupByCourse rows) as [grouped|e]|];
    destruct first; simpl; reflexivity.
Qed.

(** With courses and an identity the effect issues both fetches, once
    each. *)
Lemma loadData_fetches_both {B} (be : Backend B) (c : CourseInfo)
    (courses : list CourseInfo) (u : User) (b : B) (st : State) :
  let out := run be (loadData (c :: courses) (Some u)) b st in
  List.filter is_request (trace out)
  = [ReqSelectAssignments (List.map c_id (c :: courses));
     ReqSelectSubmissions (u_id u)].
Proof.
  rewrite run_loadData. cbv zeta. cbn [trace].
  destruct (fst (on_select_assignments be b _)) as [rows|e];
    [destruct (groupByCourse rows)|]; reflexivity.
Qed.

(** Scenario: one course, one assignment, no submission. *)
Example scenario_not_submitted :
  let st := state (run memoryBackend (loadData [algebra] (Some alice))
                     store0 initialState) in
  view_courses (render [algebra] st)
  = Accordion
      [{| item_key := str "c1"; item_title := str "Algebra I";
          item_completed := Normal 0%nat; item_total := 1;
          item_body := Normal (AssignmentRows
            [{| row_key := str "a1"; row_title := str "HW1";
                row_phase := 1; row_due_days := None; row_max_score := None;
                row_badge := BadgeNotSubmitted; row_description := None;
                row_submit := Some hw1; row_view_feedback := None;
                row_awaiting := false |}]) |}].
Proof. vm_compute. reflexivity. Qed.

(** Scenario: submitting "My answer" for it creates the pending row; the
    course then reads 1/1 and the row offers no action. *)
Example scenario_submit :
  let st0 := state (run memoryBackend (loadData [algebra] (Some alice))
                      store0 initialState) in
  let st1 := set_submissionText (str "My answer")
               (set_selectedAssignment (Some hw1) st0) in
  let out := run memoryBackend (handleSubmit (Some alice) st1) store0 st1 in
  List.map (fun r => (fst r, s_assignment_id (snd r),
                      s_submission_text (snd r), s_status (snd r)))
    (tbl_submissions (backend out))
  = [(str "u1", str "a1", Some (str "My answer"), str "pending")]
  /\ view_submit_dialog (render [algebra] (state out)) = None
  /\ List.map (fun i => (item_completed i, item_total i))
       match view_courses (render [algebra] (state out)) with
       | Accordion items => items
       | EmptyState _ => []
       end
     = [(Normal 1%nat, 1%nat)]
  /\ List.map (fun r => (row_badge r, row_submit r, row_view_feedback r))
       match view_courses (render [algebra] (state out)) with
       | Accordion [{| item_body := Normal (AssignmentRows rows) |}] => rows
       | _ => []
       end
     = [(BadgePending, None, None)].
Proof. vm_compute. auto. Qed.

(** Scenario: once graded, the row offers the feedback action, and the
    dialog it opens shows that submission's score, feedback and text. *)
Example scenario_graded :
  let st := set_submissions [graded_hw1] (set_assignments
              {[ str "c1" := [hw1] ]} initialState) in
  List.map (fun r => (row_badge r, row_submit r, row_view_feedback r))
    match view_courses (render [algebra] st) with
    | Accordion [{| item_body := Normal (AssignmentRows rows) |}] => rows
    | _ => []
    end
  = [(BadgeGraded, None, Some graded_hw1)]
  /\ view_feedback_dialog
       (render [algebra] (set_viewingFeedback (Some graded_hw1) st))
     = Some {| fd_score := Some 85;
               fd_feedback := Some (str "Good work");
               fd_submission_text := Some (str "My answer") |}.
Proof. vm_compute. auto. Qed.

(** * Further properties of the component *)

(** ** What the submit handler sends *)

Section SubmitMore.

Context {B : Type} (be : Backend B).

Lemma trimStart_app_keep (l r : jsstring) (c : N) :
  isTrimmed c = false ->
  trimStart (l ++ c :: r) = trimStart l ++ c :: r.
Proof.
  intros Hc. induction l as [|x l IH]; simpl.
  - rewrite Hc. reflexivity.
  - destruct (isTrimmed x); [exact IH|reflexivity].
Qed.

Lemma trimStart_head (s : jsstring) :
  match trimStart s with
  | [] => True
  | c :: _ => isTrimmed c = false
  end.
Proof.
  induction s as [|x s IH]; simpl; [exact I|].
  destruct (isTrimmed x) eqn:Hx; [exact IH|exact Hx].
Qed.

Lemma trimStart_keep (c : N) (s : jsstring) :
  isTrimmed c = false -> trimStart (c :: s) = c :: s.
Proof. intros Hc. simpl. rewrite Hc. reflexivity. Qed.

Lemma trimStart_idem (s : jsstring) : trimStart (trimStart s) = trimStart s.
Proof.
  pose proof (trimStart_head s) as H.
  destruct (trimStart s) as [|c t]; [reflexivity|].
  apply trimStart_keep, H.
Qed.

Lemma trimEnd_cons_keep (c : N) (s : jsstring) :
  isTrimmed c = false -> trimEnd (c :: s) = c :: trimEnd s.
Proof.
  intros Hc. unfold trimEnd. simpl.
  rewrite (trimStart_app_keep (rev s) [] c Hc), rev_app_distr.
  reflexivity.
Qed.

(** Trimming leaves nothing to strip at either end. *)
Lemma trim_stripped (s : jsstring) :
  trimStart (trim s) = trim s /\ trimEnd (trim s) = trim s.
Proof.
  unfold trim. split.
  - pose proof (trimStart_head s) as H.
    destruct (trimStart s) as [|c t]; [reflexivity|].
    rewrite (trimEnd_cons_keep c t H). apply trimStart_keep, H.
  - unfold trimEnd. rewrite rev_involutive, trimStart_idem. reflexivity.
Qed.

Lemma trim_idem (s : jsstring) : trim (trim s) = trim s.
Proof.
  destruct (trim_stripped s) as [H1 H2].
  unfold trim at 1. rewrite H1. exact H2.
Qed.

Lemma forallb_existsb_negb {A} (f : A -> bool) (l : list A) :
  forallb f l = negb (existsb (fun x => negb (f x)) l).
Proof.
  induction l as [|x l IH]; simpl; [reflexivity|].
  rewrite IH. destruct (f x); reflexivity.
Qed.

(** The handler, against any answers, in one equation per outcome. *)
Lemma handleSubmit_trace_cases (user : option User) (b : B) (st : State) :
  let tr := trace (run be (handleSubmit user st) b st) in
  (tr = [ToastedError (str "Please enter your submission")]
   /\ (user = None \/ selectedAssignment st = None
       \/ trim (submissionText st) = []))
  \/
  (exists u sel,
     user = Some u /\ selectedAssignment st = Some sel
     /\ trim (submissionText st) <> []
     /\ (tr = [ReqInsert (submitted_row u sel (submissionText st));
               ToastedError (str "Failed to submit assignment")]
         \/ tr = [ReqInsert (submitted_row u sel (submissionText st));
                  ToastedSuccess (str "Assignment submitted successfully!");
                  ReqSelectSubmissions (u_id u)])).
Proof.
  cbv zeta.
  destruct user as [u|]; [|left; split; [reflexivity|auto]].
  destruct (selectedAssignment st) as [sel|] eqn:Hsel;
    [|left; unfold handleSubmit; rewrite Hsel; split; [reflexivity|auto]].
  destruct (decide (trim (submissionText st) = [])) as [Ht|Hne].
  - left. unfold handleSubmit. rewrite Hsel, Ht. split; [reflexivity|auto].
  - right. exists u, sel.
    split; [reflexivity|]. split; [reflexivity|]. split; [exact Hne|].
    rewrite (run_handleSubmit_valid be u sel b st Hsel Hne). cbv zeta.
    destruct (fst (on_insert be b _)); [right|left]; reflexivity.
Qed.

(** A write is issued exactly when there is an identity, a selected
    assignment, and the buffer holds a code unit that is neither white
    space nor a line terminator. *)
Theorem handleSubmit_writes_iff (user : option User) (b : B) (st : State) :
  existsb is_insert (trace (run be (handleSubmit user st) b st)) = true
  <->
  user <> None /\ selectedAssignment st <> None
  /\ existsb (fun c => negb (isTrimmed c)) (submissionText st) = true.
Proof.
  assert (Hws : trim (submissionText st) = [] <->
                existsb (fun c => negb (isTrimmed c)) (submissionText st)
                  = false).
  { rewrite trim_nil_iff, forallb_existsb_negb.
    destruct (existsb _ (submissionText st)); simpl; split; congruence. }
  destruct (handleSubmit_trace_cases user b st)
    as [[-> Hbad]|(u & sel & -> & Hsel & Hne & [-> | ->])].
  - split; [discriminate|].
    intros (Hu & Hs & Hx).
    destruct Hbad as [H|[H|H]]; [congruence|congruence|].
    apply Hws in H. congruence.
  - split; [intros _|reflexivity].
    split; [discriminate|]. split; [congruence|].
    apply not_false_iff_true. intros E. apply Hws in E. contradiction.
  - split; [intros _|reflexivity].
    split; [discriminate|]. split; [congruence|].
    apply not_false_iff_true. intros E. apply Hws in E. contradiction.
Qed.

(** Whatever the inputs, a row the handler sends has status "pending"
    and a non-empty text with nothing left to trim at either end. *)
Theorem handleSubmit_sends_stripped_text (user : option User) (b : B)
    (st : State) (row : SubmissionInsert) :
  In (ReqInsert row) (trace (run be (handleSubmit user st) b st)) ->
  i_status row = str "pending"
  /\ i_submission_text row <> []
  /\ trimStart (i_submission_text row) = i_submission_text row
  /\ trimEnd (i_submission_text row) = i_submission_text row
  /\ trim (i_submission_text row) = i_submission_text row.
Proof.
  intros Hin.
  assert (exists u sel, trim (submissionText st) <> []
                        /\ row = submitted_row u sel (submissionText st))
    as (u & sel & Hne & ->).
  { destruct (handleSubmit_trace_cases user b st)
      as [[Htr _]|(u & sel & _ & _ & Hne & [Htr|Htr])];
      cbv zeta in Htr; rewrite Htr in Hin; simpl in Hin.
    - destruct Hin as [H|[]]; discriminate.
    - destruct Hin as [H|[H|[]]]; [|discriminate].
      injection H as <-. eauto.
    - destruct Hin as [H|[H|[H|[]]]]; [|discriminate|discriminate].
      injection H as <-. eauto. }
  cbn [submitted_row i_status i_submission_text].
  destruct (trim_stripped (submissionText st)) as [H1 H2].
  split; [reflexivity|]. split; [exact Hne|]. split; [exact H1|].
  split; [exact H2|apply trim_idem].
Qed.

(** Whatever the inputs and the answers, the handler issues at most one
    write, never fetches the assignments, and leaves the assignment
    index and the feedback dialog as they were. *)
Theorem handleSubmit_frame (user : option User) (b : B) (st : State) :
  let out := run be (handleSubmit user st) b st in
  (length (List.filter is_insert (trace out)) <= 1)%nat
  /\ List.filter is_assignment_fetch (trace out) = []
  /\ assignments (state out) = assignments st
  /\ viewingFeedback (state out) = viewingFeedback st.
Proof.
  cbv zeta.
  destruct user as [u|]; [|simpl; auto].
  destruct (selectedAssignment st) as [sel|] eqn:Hsel;
    [|unfold handleSubmit; rewrite Hsel; simpl; auto].
  destruct (decide (trim (submissionText st) = [])) as [Ht|Hne].
  - unfold handleSubmit. rewrite Hsel, Ht. simpl. auto.
  - rewrite (run_handleSubmit_valid be u sel b st Hsel Hne). cbv zeta.
    destruct (fst (on_insert be b _)); simpl; auto.
Qed.

(** Nothing guards against a second call from the same render: two
    calls on the same valid inputs send the same row twice. *)
Theorem handleSubmit_twice_inserts_twice (u : User) (sel : Assignment)
    (b : B) (st : State) :
  selectedAssignment st = Some sel ->
  trim (submissionText st) <> [] ->
  let out := run be (handleSubmit (Some u) st ;; handleSubmit (Some u) st)
               b st in
  List.filter is_insert (trace out)
  = [ReqInsert (submitted_row u sel (submissionText st));
     ReqInsert (submitted_row u sel (submissionText st))].
Proof.
  intros Hsel Hne. cbv zeta. rewrite run_bind. cbv zeta.
  cbn [trace]. rewrite List.filter_app.
  assert (Hone : forall b' st',
            List.filter is_insert
              (trace (run be (handleSubmit (Some u) st) b' st'))
            = [ReqInsert (submitted_row u sel (submissionText st))]).
  { intros b' st'. unfold handleSubmit. rewrite Hsel.
    destruct (trim (submissionText st)) as [|c t] eqn:Ht; [congruence|].
    cbn [truthy_string negb]. unfold submitted_row. rewrite Ht. simpl.
    destruct (on_insert be b' _) as [r b''].
    destruct r as [d|e]; simpl; [|reflexivity].
    destruct (on_select_submissions be b'' (u_id u)) as [r' b'''].
    reflexivity. }
  rewrite !Hone. reflexivity.
Qed.

End SubmitMore.

Lemma handleSubmit_sends_stripped_text_witness :
  let row := submitted_row alice hw1 (submissionText answering) in
  In (ReqInsert row)
     (trace (run memoryBackend (handleSubmit (Some alice) answering)
               store0 answering))
  /\ i_status row = str "pending"
  /\ i_submission_text row = str "My answer"
  /\ trim (i_submission_text row) = i_submission_text row.
Proof.
  cbv zeta.
  assert (Hin : In (ReqInsert (submitted_row alice hw1
                                 (submissionText answering)))
                  (trace (run memoryBackend
                            (handleSubmit (Some alice) answering)
                            store0 answering)))
    by (vm_compute; left; reflexivity).
  destruct (handleSubmit_sends_stripped_text memoryBackend (Some alice)
              store0 answering _ Hin) as (Hs & _ & _ & _ & Ht).
  split; [exact Hin|]. split; [exact Hs|].
  split; [vm_compute; reflexivity|exact Ht].
Defined.

Lemma handleSubmit_twice_inserts_twice_witness :
  let row := submitted_row alice hw1 (submissionText answering) in
  let out := run memoryBackend
               (handleSubmit (Some alice) answering ;;
                handleSubmit (Some alice) answering) store0 answering in
  List.filter is_insert (trace out) = [ReqInsert row; ReqInsert row]
  /\ length (tbl_submissions (backend out)) = 2%nat.
Proof.
  cbv zeta. split.
  - apply (handleSubmit_twice_inserts_twice memoryBackend alice hw1 store0
             answering).
    + reflexivity.
    + vm_compute; discriminate.
  - vm_compute. reflexivity.
Defined.

(** ** The loader's result *)

Section LoaderMore.

Context {B : Type} (be : Backend B).

(** When the assignment fetch succeeds and grouping its rows completes,
    the effect replaces both caches by what the two answers hold,
    nothing of the old caches remains, and the dialogs (selection,
    buffer, feedback) are not touched; this whichever answer arrives
    first. *)
Theorem loadData_replaces_caches (c : CourseInfo) (courses : list CourseInfo)
    (u : User) (b : B) (st : State) (rows : list Assignment)
    (grouped : gmap jsstring (list Assignment)) :
  let ra := on_select_assignments be b (List.map c_id (c :: courses)) in
  let rs := on_select_submissions be (snd ra) (u_id u) in
  fst ra = ResponseSuccess rows ->
  groupByCourse rows = Normal grouped ->
  let out := run be (loadData (c :: courses) (Some u)) b st in
  assignments (state out) = grouped
  /\ submissions (state out) = default [] (data (fst rs))
  /\ selectedAssignment (state out) = selectedAssignment st
  /\ submissionText (state out) = submissionText st
  /\ viewingFeedback (state out) = viewingFeedback st.
Proof.
  cbv zeta. intros Hok Hg. rewrite run_loadData. cbv zeta.
  rewrite Hok, Hg. simpl. auto.
Qed.

(** When the assignment fetch fails, both requests have gone out before
    the failure is logged; the submission answer is stored, and the
    index that was cached stays; this whichever answer arrives first. *)
Theorem loadData_keeps_index_on_failure (c : CourseInfo)
    (courses : list CourseInfo) (u : User) (b : B) (st : State)
    (e : PostgrestError) :
  let ra := on_select_assignments be b (List.map c_id (c :: courses)) in
  let rs := on_select_submissions be (snd ra) (u_id u) in
  fst ra = ResponseFailure e ->
  let out := run be (loadData (c :: courses) (Some u)) b st in
  trace out = [ReqSelectAssignments (List.map c_id (c :: courses));
               ReqSelectSubmissions (u_id u);
               Logged (str "Failed to fetch assignments:") e]
  /\ assignments (state out) = assignments st
  /\ submissions (state out) = default [] (data (fst rs)).
Proof.
  cbv zeta. intros Hfail. rewrite run_loadData. cbv zeta.
  rewrite Hfail. simpl. auto.
Qed.

End LoaderMore.

Lemma loadData_replaces_caches_witness :
  let st := set_submissions [pending_hw1] answering in
  let out := run (overtaking memoryBackend)
               (loadData [algebra; geometry] (Some alice)) store1 st in
  groupByCourse [hw1; quiz; hw2] = Normal sampleIndex
  /\ assignments (state out) = sampleIndex
  /\ submissions (state out) = [graded_hw1; pending_hw1]
  /\ selectedAssignment (state out) = Some hw1
  /\ submissionText (state out) = submissionText answering
  /\ viewingFeedback (state out) = None.
Proof.
  cbv zeta.
  assert (Hg : groupByCourse [hw1; quiz; hw2] = Normal sampleIndex)
    by (vm_compute; reflexivity).
  split; [exact Hg|].
  apply (loadData_replaces_caches (overtaking memoryBackend) algebra
           [geometry] alice store1 (set_submissions [pending_hw1] answering)
           [hw1; quiz; hw2] sampleIndex).
  - reflexivity.
  - exact Hg.
Defined.

Lemma loadData_keeps_index_on_failure_witness :
  let out := run brokenBackend (loadData [algebra] (Some alice)) tt answering in
  trace out = [ReqSelectAssignments (List.map c_id [algebra]);
               ReqSelectSubmissions (u_id alice);
               Logged (str "Failed to fetch assignments:") unavailable]
  /\ assignments (state out) = assignments answering
  /\ submissions (state out) = [].
Proof.
  cbv zeta.
  apply (loadData_keeps_index_on_failure brokenBackend algebra [] alice tt
           answering unavailable).
  reflexivity.
Defined.

(** ** The index and the rendered courses *)

Section IndexMore.

(** Grouping throws exactly when some row's course id names a member of
    [Object.prototype]; it then stops at the first such row. *)
Theorem groupByCourse_throws_iff (rows : list Assignment) :
  groupByCourse rows = Throws TypeError
  <-> List.Exists (fun a => ~ plainKey (a_course_id a)) rows.
Proof.
  pose proof (groupByCourse_spec rows) as H.
  destruct (groupByCourse rows) as [grouped|[]].
  - split; [discriminate|]. intros Hex. destruct H as [Hall _].
    apply List.Exists_exists in Hex. destruct Hex as (a & Ha & Hn).
    rewrite List.Forall_forall in Hall. destruct (Hn (Hall a Ha)).
  - split; [intros _; exact H|reflexivity].
Qed.

(** When grouping completes it loses and invents nothing: no key holds
    an empty list, every row under a key carries that course id, and
    every fetched row sits in the list of its course. *)
Theorem groupByCourse_partition (rows : list Assignment)
    (grouped : gmap jsstring (list Assignment)) :
  groupByCourse rows = Normal grouped ->
  (forall k l, grouped !! k = Some l ->
     l <> [] /\ List.Forall (fun a => a_course_id a = k) l)
  /\ (forall a, In a rows <->
        exists l, grouped !! a_course_id a = Some l /\ In a l).
Proof.
  intros Hg. split.
  - intros k l. rewrite (groupByCourse_lookup _ _ k Hg).
    destruct (rowsOfCourse k rows) as [|x t] eqn:E; [discriminate|].
    intros [= <-]. split; [discriminate|].
    rewrite <- E. apply List.Forall_forall. intros a Ha.
    unfold rowsOfCourse in Ha. apply List.filter_In in Ha.
    destruct Ha as [_ Ha]. apply bool_decide_eq_true_1 in Ha. exact Ha.
  - intros a. rewrite (groupByCourse_lookup _ _ (a_course_id a) Hg).
    assert (Hin : In a rows <-> In a (rowsOfCourse (a_course_id a) rows)).
    { unfold rowsOfCourse. rewrite List.filter_In.
      rewrite bool_decide_eq_true. tauto. }
    rewrite Hin.
    destruct (rowsOfCourse (a_course_id a) rows) as [|x t].
    + split; [intros []|]. intros (l & Hl & _). discriminate.
    + split; [eauto|]. intros (l & [= <-] & Hl). exact Hl.
Qed.

(** A course whose id names no member of [Object.prototype], rendered
    over a freshly grouped index: its total is the number of fetched
    rows of the course, and its body is one row per such assignment in
    the order fetched, or the "no assignments" line when there is none;
    nothing in it throws. *)
Theorem renderCourse_after_grouping (st : State) (course : CourseInfo)
    (rows : list Assignment) (grouped : gmap jsstring (list Assignment)) :
  groupByCourse rows = Normal grouped ->
  assignments st = grouped ->
  plainKey (c_id course) ->
  let mine := rowsOfCourse (c_id course) rows in
  item_total (renderCourse st course) = length mine
  /\ item_body (renderCourse st course) =
     Normal
       match mine with
       | [] => NoAssignments (str "No assignments available yet")
       | _ :: _ =>
           AssignmentRows (List.map (renderAssignment (submissions st)) mine)
       end
  /\ itemThrows (renderCourse st course) = false.
Proof.
  intros Hg Hidx Hplain. cbv zeta.
  unfold itemThrows, renderCourse, getAssignmentCountForCourse,
    getCompletedCountForCourse, getMember.
  cbn [item_total item_body item_completed].
  rewrite Hidx, (groupByCourse_lookup _ _ (c_id course) Hg).
  unfold plainKey in Hplain.
  destruct (rowsOfCourse (c_id course) rows) as [|x t];
    [rewrite Hplain|]; auto.
Qed.

(** The render throws exactly when some course's id has no own property
    in the index and names a member of [Object.prototype]. *)
Theorem render_throws_iff (courses : list CourseInfo) (st : State) :
  renderThrows (render courses st) = true
  <-> exists course,
        In course courses
        /\ assignments st !! c_id course = None
        /\ ~ plainKey (c_id course).
Proof.
  assert (Hitem : forall course,
            itemThrows (renderCourse st course) = true
            <-> assignments st !! c_id course = None
                /\ ~ plainKey (c_id course)).
  { intros course.
    unfold itemThrows, renderCourse, getCompletedCountForCourse, getMember,
      plainKey.
    cbn [item_completed item_body].
    destruct (assignments st !! c_id course) as [l|].
    - cbn [truthy_member negb orb memberLength].
      split; [|intros [? _]; discriminate].
      destruct (bool_decide (Some (length l) = Some 0%nat)); discriminate.
    - destruct (inheritedMember (c_id course)) as [m|].
      + cbn [truthy_member]. split; [|reflexivity].
        intros _. split; [reflexivity|discriminate].
      + cbn [truthy_member negb orb].
        split; [discriminate|]. intros [_ Hn]. destruct (Hn eq_refl). }
  unfold renderThrows, render. cbn [view_courses].
  destruct courses as [|c courses].
  - cbn [length Nat.eqb]. split; [discriminate|]. intros (? & [] & _).
  - cbn [length Nat.eqb]. rewrite existsb_exists. split.
    + intros (i & Hi & Hthrow). apply List.in_map_iff in Hi.
      destruct Hi as (course & <- & Hin).
      exists course. split; [exact Hin|apply Hitem, Hthrow].
    + intros (course & Hin & Hown & Hn).
      exists (renderCourse st course).
      split; [apply List.in_map, Hin|apply Hitem; auto].
Qed.

Lemma truthy_getSubmission (subs : list Submission) (id : jsstring) :
  truthy (getSubmission subs id) = true <->
  exists s, In s subs /\ s_assignment_id s = id.
Proof.
  unfold getSubmission. induction subs as [|x subs IH]; simpl.
  - split; [discriminate|]. intros (s & [] & _).
  - case_bool_decide as Hx; simpl.
    + split; [eauto|reflexivity].
    + rewrite IH. split.
      * intros (s & Hs & Hid). eauto.
      * intros (s & [->|Hs] & Hid); [contradiction|eauto].
Qed.

(** The outcome of counting the completed assignments (a number, or the
    throw on an inherited name) depends only on which assignment ids
    have a submission: status, order and multiplicity of the submissions
    do not enter. *)
Theorem completed_count_ignores_status (st : State)
    (subs' : list Submission) (courseId : jsstring) :
  (forall id, In id (List.map s_assignment_id subs') <->
              In id (List.map s_assignment_id (submissions st))) ->
  getCompletedCountForCourse (set_submissions subs' st) courseId
  = getCompletedCountForCourse st courseId.
Proof.
  intros Hids. unfold getCompletedCountForCourse.
  cbn [set_submissions assignments submissions].
  assert (Hf : forall l,
            List.filter (fun a => truthy (getSubmission subs' (a_id a))) l
            = List.filter
                (fun a => truthy (getSubmission (submissions st) (a_id a))) l).
  { intros l. apply List.filter_ext. intros a.
    apply eq_true_iff_eq. rewrite !truthy_getSubmission.
    specialize (Hids (a_id a)). rewrite !List.in_map_iff in Hids.
    split; intros (s & Hs & Hid).
    - destruct (proj1 Hids) as (s' & ? & ?); eauto.
    - destruct (proj2 Hids) as (s' & ? & ?); eauto. }
  destruct (getMember (assignments st) courseId) as [l|m|];
    cbn [truthy_member]; [rewrite Hf|..]; reflexivity.
Qed.

(** For a course id that names no member of [Object.prototype]: without
    submissions nothing is completed; when every assignment of the
    course has a submission, all are. *)
Theorem completed_count_extremes (st : State) (courseId : jsstring) :
  plainKey courseId ->
  (submissions st = [] ->
   getCompletedCountForCourse st courseId = Normal 0%nat)
  /\ ((forall a, In a (default [] (assignments st !! courseId)) ->
         exists s, In s (submissions st) /\ s_assignment_id s = a_id a) ->
      getCompletedCountForCourse st courseId
      = Normal (length (default [] (assignments st !! courseId)))).
Proof.
  unfold plainKey. intros Hplain.
  assert (Hm : getCompletedCountForCourse st courseId
               = Normal (length (List.filter
                   (fun a => truthy (getSubmission (submissions st) (a_id a)))
                   (default [] (assignments st !! courseId))))).
  { unfold getCompletedCountForCourse, getMember.
    destruct (assignments st !! courseId) as [l|]; [|rewrite Hplain];
      reflexivity. }
  rewrite Hm. clear Hm. split.
  - intros ->. f_equal.
    induction (default [] (assignments st !! courseId)); [reflexivity|assumption].
  - intros Hall. f_equal.
    induction (default [] (assignments st !! courseId)) as [|a l IH];
      [reflexivity|].
    simpl. rewrite (proj2 (truthy_getSubmission _ _)).
    + simpl. f_equal. apply IH. intros a' Ha'. apply Hall. right. exact Ha'.
    + apply Hall. left. reflexivity.
Qed.

End IndexMore.

Lemma groupByCourse_partition_witness :
  groupByCourse [hw1; quiz; hw2] = Normal sampleIndex
  /\ sampleIndex !! str "c1" = Some [hw1; hw2]
  /\ (In quiz [hw1; quiz; hw2] <->
      exists l, sampleIndex !! a_course_id quiz = Some l /\ In quiz l).
Proof.
  assert (Hg : groupByCourse [hw1; quiz; hw2] = Normal sampleIndex)
    by (vm_compute; reflexivity).
  split; [exact Hg|]. split; [vm_compute; reflexivity|].
  apply (proj2 (groupByCourse_partition [hw1; quiz; hw2] sampleIndex Hg)).
Defined.

Lemma renderCourse_after_grouping_witness :
  let st := set_assignments sampleIndex initialState in
  groupByCourse [hw1; quiz; hw2] = Normal sampleIndex
  /\ plainKey (c_id algebra)
  /\ item_total (renderCourse st algebra) = 2%nat
  /\ item_body (renderCourse st algebra) =
     Normal (AssignmentRows (List.map (renderAssignment []) [hw1; hw2]))
  /\ itemThrows (renderCourse st algebra) = false.
Proof.
  cbv zeta.
  assert (Hg : groupByCourse [hw1; quiz; hw2] = Normal sampleIndex)
    by (vm_compute; reflexivity).
  assert (Hp : plainKey (c_id algebra)) by reflexivity.
  split; [exact Hg|]. split; [exact Hp|].
  exact (renderCourse_after_grouping
           (set_assignments sampleIndex initialState)
           algebra [hw1; quiz; hw2] sampleIndex Hg eq_refl Hp).
Defined.

(** The graded and the pending submission of [hw1] count as the pending
    one alone does. *)
Lemma completed_count_ignores_status_witness :
  let st := set_submissions [pending_hw1]
              (set_assignments sampleIndex initialState) in
  getCompletedCountForCourse
    (set_submissions [graded_hw1; pending_hw1] st) (str "c1")
  = getCompletedCountForCourse st (str "c1").
Proof.
  cbv zeta.
  apply (completed_count_ignores_status
           (set_submissions [pending_hw1]
              (set_assignments sampleIndex initialState))
           [graded_hw1; pending_hw1] (str "c1")).
  intros id. simpl. tauto.
Defined.

Lemma completed_count_extremes_witness :
  let st := set_submissions [pending_hw1]
              (set_assignments {[ str "c1" := [hw1] ]} initialState) in
  plainKey (str "c1")
  /\ getCompletedCountForCourse initialState (str "c1") = Normal 0%nat
  /\ getCompletedCountForCourse st (str "c1") = Normal 1%nat.
Proof.
  cbv zeta.
  assert (Hp : plainKey (str "c1")) by reflexivity.
  split; [exact Hp|]. split.
  - apply (proj1 (completed_count_extremes initialState (str "c1") Hp)).
    reflexivity.
  - etransitivity.
    + apply (proj2 (completed_count_extremes
               (set_submissions [pending_hw1]
                  (set_assignments {[ str "c1" := [hw1] ]} initialState))
               (str "c1") Hp)).
      intros a Ha. vm_compute in Ha. destruct Ha as [<-|[]].
      exists pending_hw1. split; [left; reflexivity|reflexivity].
    + vm_compute. reflexivity.
Defined.

(** ** The dialogs *)

Section Dialogs.

Variable courses : list CourseInfo.

(** The submit dialog is open exactly while an assignment is selected;
    the feedback dialog exactly while a submission is being viewed. *)
Lemma dialogs_open_iff (st : State) :
  (view_submit_dialog (render courses st) = None
     <-> selectedAssignment st = None)
  /\ (view_feedback_dialog (render courses st) = None
     <-> viewingFeedback st = None).
Proof.
  unfold render. cbn [view_submit_dialog view_feedback_dialog].
  destruct (selectedAssignment st), (viewingFeedback st);
    split; split; congruence.
Qed.

(** Closing the submit dialog (Cancel, or the dialog's own close) keeps
    what was typed: the next dialog opened, on whatever assignment,
    starts with that text.  A request to open changes nothing. *)
Theorem closing_keeps_buffer (st : State) (a a' : Assignment)
    (text : jsstring) :
  let typed := changeText text (clickSubmit a st) in
  (forall closed,
     closed = clickCancel typed \/ closed = submitDialogOpenChange false typed ->
     view_submit_dialog (render courses closed) = None
     /\ view_submit_dialog (render courses (clickSubmit a' closed))
        = Some {| sd_title := a_title a';
                  sd_description := shown (a_description a');
                  sd_value := text |})
  /\ submitDialogOpenChange true typed = typed.
Proof.
  cbv zeta. split; [|reflexivity].
  intros closed [-> | ->]; split; reflexivity.
Qed.

(** A row offers Submit only for its own assignment and only when no
    cached submission carries its id; the click opens the dialog on that
    assignment with the buffer as it stands. *)
Theorem submit_action_opens_dialog (st : State) (a target : Assignment) :
  row_submit (renderAssignment (submissions st) a) = Some target ->
  target = a
  /\ List.Forall (fun s => s_assignment_id s <> a_id a) (submissions st)
  /\ view_submit_dialog (render courses (clickSubmit target st))
     = Some {| sd_title := a_title a;
               sd_description := shown (a_description a);
               sd_value := submissionText st |}.
Proof.
  unfold renderAssignment. cbn [row_submit].
  destruct (getSubmission (submissions st) (a_id a)) as [s|] eqn:E;
    simpl; [discriminate|].
  intros [= <-]. split; [reflexivity|].
  split; [apply getSubmission_None, E|reflexivity].
Qed.

(** A row offers View Feedback only for the first cached submission of
    its assignment and only when that one is graded; the click opens the
    dialog on exactly that submission's score, feedback and text. *)
Theorem feedback_action_shows_submission (st : State) (a : Assignment)
    (s : Submission) :
  row_view_feedback (renderAssignment (submissions st) a) = Some s ->
  getSubmission (submissions st) (a_id a) = Some s
  /\ s_assignment_id s = a_id a
  /\ s_status s = str "graded"
  /\ view_feedback_dialog (render courses (clickViewFeedback s st))
     = Some {| fd_score := s_score s;
               fd_feedback := shown (s_feedback s);
               fd_submission_text := s_submission_text s |}.
Proof.
  unfold renderAssignment. cbn [row_view_feedback].
  destruct (getSubmission (submissions st) (a_id a)) as [s0|] eqn:E;
    [|discriminate].
  case_bool_decide as Hg; [|discriminate].
  intros [= <-]. split; [reflexivity|].
  unfold getSubmission in E. apply List.find_some in E.
  destruct E as [_ Hid]. apply bool_decide_eq_true_1 in Hid.
  split; [exact Hid|]. split; [exact Hg|reflexivity].
Qed.

(** Closing the feedback dialog touches nothing else, and neither
    dialog's handlers reach the caches. *)
Lemma feedback_close_frame (st : State) (s : Submission) :
  clickClose (clickViewFeedback s st) = set_viewingFeedback None st
  /\ feedbackDialogOpenChange false (clickViewFeedback s st)
     = set_viewingFeedback None st
  /\ feedbackDialogOpenChange true (clickViewFeedback s st)
     = clickViewFeedback s st.
Proof. repeat split. Qed.

End Dialogs.

Lemma closing_keeps_buffer_witness :
  let typed := changeText (str "draft") (clickSubmit hw1 initialState) in
  view_submit_dialog (render [algebra] (clickCancel typed)) = None
  /\ view_submit_dialog (render [algebra] (clickSubmit hw2 (clickCancel typed)))
     = Some {| sd_title := a_title hw2;
               sd_description := shown (a_description hw2);
               sd_value := str "draft" |}.
Proof.
  cbv zeta.
  apply (proj1 (closing_keeps_buffer [algebra] initialState hw1 hw2
                  (str "draft"))).
  left. reflexivity.
Defined.

Lemma submit_action_opens_dialog_witness :
  let st := set_submissionText (str "draft") initialState in
  row_submit (renderAssignment (submissions st) hw1) = Some hw1
  /\ view_submit_dialog (render [algebra] (clickSubmit hw1 st))
     = Some {| sd_title := a_title hw1;
               sd_description := shown (a_description hw1);
               sd_value := str "draft" |}.
Proof.
  cbv zeta.
  assert (H : row_submit
                (renderAssignment
                   (submissions (set_submissionText (str "draft") initialState))
                   hw1) = Some hw1) by reflexivity.
  split; [exact H|].
  apply (submit_action_opens_dialog [algebra] _ hw1 hw1 H).
Defined.

(** Two submissions of [hw1] cached, the graded one first. *)
Lemma feedback_action_shows_submission_witness :
  let st := set_submissions [graded_hw1; pending_hw1] initialState in
  row_view_feedback (renderAssignment (submissions st) hw1) = Some graded_hw1
  /\ view_feedback_dialog (render [algebra] (clickViewFeedback graded_hw1 st))
     = Some {| fd_score := Some 85;
               fd_feedback := Some (str "Good work");
               fd_submission_text := Some (str "My answer") |}.
Proof.
  cbv zeta.
  assert (H : row_view_feedback
                (renderAssignment
                   (submissions
                      (set_submissions [graded_hw1; pending_hw1] initialState))
                   hw1) = Some graded_hw1) by (vm_compute; reflexivity).
  split; [exact H|].
  apply (feedback_action_shows_submission [algebra] _ hw1 graded_hw1 H).
Defined.

(** * Further properties of the storage policies *)

(** ** Paths *)

Section Paths.

Import Sql Rls.

Lemma has_char_app (c : ascii) (s t : string) :
  has_char c (s +:+ t) = has_char c s || has_char c t.
Proof.
  induction s as [|x s IH]; simpl; [reflexivity|].
  rewrite IH. apply orb_assoc.
Qed.

Lemma split_on_not_nil (d : ascii) (s : string) : split_on d s <> [].
Proof.
  induction s as [|c s IH]; simpl; [discriminate|].
  destruct (Ascii.eqb c d); [discriminate|].
  destruct (split_on d s); discriminate.
Qed.

(** Splitting after a first component that holds no delimiter. *)
Lemma split_on_prefix (d : ascii) (s t : string) :
  has_char d s = false ->
  split_on d (s +:+ String d t) = s :: split_on d t.
Proof.
  induction s as [|c s IH]; simpl.
  - intros _. rewrite Ascii.eqb_refl. reflexivity.
  - intros H. apply orb_false_iff in H. destruct H as [Hc Hs].
    rewrite Hc, (IH Hs). reflexivity.
Qed.

(** Joining back: a split with a second component comes from a string
    with a delimiter after the first. *)
Lemma split_on_cons_inv (d : ascii) (s x y : string) (l : list string) :
  split_on d s = x :: y :: l ->
  exists s', s = x +:+ String d s' /\ split_on d s' = y :: l.
Proof.
  revert x. induction s as [|c s IH]; intros x; simpl; [discriminate|].
  destruct (Ascii.eqb c d) eqn:Hc.
  - apply Ascii.eqb_eq in Hc. subst c. intros [= <- H]. exists s. auto.
  - destruct (split_on d s) as [|part rest] eqn:E.
    + discriminate.
    + intros [= <- ->].
      destruct (IH part eq_refl) as (s' & -> & Hs'). exists s'. auto.
Qed.

Lemma folders_iff (l : list string) (a b : string) :
  subscript (removelast l) 1 = Some a /\ subscript (removelast l) 2 = Some b
  <-> exists more, l = a :: b :: more /\ more <> [].
Proof.
  split.
  - destruct l as [|x [|y [|z m]]]; simpl; intros [H1 H2];
      try discriminate.
    injection H1 as <-. injection H2 as <-. exists (z :: m).
    split; [reflexivity|discriminate].
  - intros (more & -> & Hm). destruct more as [|z m]; [congruence|].
    split; reflexivity.
Qed.

Lemma hex_digit_not_slash (d : N) : Ascii.eqb (hex_digit d) "/" = false.
Proof.
  unfold hex_digit. generalize (N.to_nat d). intros n.
  do 16 (destruct n as [|n]; [reflexivity|]).
  simpl. destruct n; reflexivity.
Qed.

Lemma hex_fixed_no_slash (w : nat) (n : N) :
  has_char "/" (hex_fixed w n) = false.
Proof.
  revert n. induction w as [|w IH]; intros n; simpl; [reflexivity|].
  rewrite has_char_app, IH. simpl.
  rewrite hex_digit_not_slash. reflexivity.
Qed.

Lemma uuid_text_no_slash (u : uuid) : has_char "/" (uuid_text u) = false.
Proof.
  unfold uuid_text.
  rewrite !has_char_app, !hex_fixed_no_slash. reflexivity.
Qed.

(** The first two folders of a path are [a] and [b] exactly when the
    path reads [a/b/...], for [a] and [b] free of slashes. *)
Lemma folders_prefix_iff (path a b : string) :
  has_char "/" a = false ->
  has_char "/" b = false ->
  (subscript (foldername path) 1 = Some a
   /\ subscript (foldername path) 2 = Some b)
  <-> exists rest, path = a +:+ "/" +:+ b +:+ "/" +:+ rest.
Proof.
  intros Ha Hb. unfold foldername. rewrite folders_iff. split.
  - intros (more & Hsplit & Hmore).
    destruct more as [|z m]; [congruence|].
    destruct path as [|c p]; [discriminate|].
    unfold string_to_array in Hsplit.
    apply split_on_cons_inv in Hsplit. destruct Hsplit as (s' & Hp & Hs').
    apply split_on_cons_inv in Hs'. destruct Hs' as (s'' & -> & _).
    exists s''. exact Hp.
  - intros (rest & ->).
    exists (split_on "/" rest). split; [|apply split_on_not_nil].
    change (a +:+ "/" +:+ b +:+ "/" +:+ rest)
      with (a +:+ String "/" (b +:+ String "/" rest)).
    assert (Hne : a +:+ String "/" (b +:+ String "/" rest) <> EmptyString)
      by (destruct a; discriminate).
    unfold string_to_array.
    destruct (a +:+ String "/" (b +:+ String "/" rest)) eqn:E; [congruence|].
    rewrite <- E, (split_on_prefix _ _ _ Ha), (split_on_prefix _ _ _ Hb).
    reflexivity.
Qed.

End Paths.

(** ** Who may do what on [storage.objects] *)

Section StorageAccess.

Import Sql Rls.

Lemma holds_Some (b : bool) : holds (Some b) = b.
Proof. destruct b; reflexivity. Qed.

Lemma holds_bucket_is (o : object) (b : string) :
  holds (bucket_is o b) = bool_decide (bucket_id o = b).
Proof. unfold bucket_is. simpl. apply holds_Some. Qed.

Lemma holds_caller_is_tutor (env : Env) :
  holds (caller_is_tutor env) = true <->
  exists tc, In tc (tutor_courses env) /\ auth_uid env = Some (tutor_id tc).
Proof.
  unfold caller_is_tutor, sql_exists. rewrite holds_Some, existsb_exists.
  split; intros (tc & Hin & H); exists tc; (split; [exact Hin|]).
  - apply holds_sql_eq in H. destruct H as (x & [= <-] & ->). reflexivity.
  - rewrite H. apply holds_sql_eq_refl.
Qed.

(** The policies of the two migrations, command by command. *)
Lemma may_insert_storage (env : Env) (o : object) :
  may_insert storage_policies env o =
  bool_decide (bucket_id o = "assignments")
    && (holds (is_not_null (auth_uid env)) && own_folder_test env o)
  || bool_decide (bucket_id o = "assignments")
       && has_role env (auth_uid env) "admin"
  || bool_decide (bucket_id o = "lesson-materials")
       && holds (caller_is_tutor env)
  || bool_decide (bucket_id o = "lesson-materials")
       && has_role env (auth_uid env) "admin".
Proof.
  unfold may_insert, storage_policies, own_folder_test.
  cbn [existsb applies pol_for students_can_upload students_can_view
       tutors_can_view admins_manage_assignment_files
       anyone_can_view_materials tutors_can_upload_materials
       tutors_can_delete_materials admins_manage_material_files
       check_of pol_with_check pol_using passes].
  replace (bool_decide (INSERT = SELECT)) with false by reflexivity.
  replace (bool_decide (INSERT = DELETE)) with false by reflexivity.
  replace (bool_decide (INSERT = INSERT)) with true by reflexivity.
  cbn [andb orb]. rewrite !holds_sql_and, !holds_bucket_is, !holds_Some.
  rewrite orb_false_r, !orb_assoc. reflexivity.
Qed.

Ltac storage_policy_cases :=
  unfold visible, check_passes, storage_policies, own_folder_test;
  cbn [existsb applies pol_for students_can_upload students_can_view
       tutors_can_view admins_manage_assignment_files
       anyone_can_view_materials tutors_can_upload_materials
       tutors_can_delete_materials admins_manage_material_files
       check_of pol_with_check pol_using passes];
  rewrite ?holds_sql_and, ?holds_bucket_is, ?holds_Some;
  repeat match goal with
         | |- context [bool_decide (?x = ?y :> command)] =>
             first [ replace (bool_decide (x = y)) with true by reflexivity
                   | replace (bool_decide (x = y)) with false by reflexivity ]
         end;
  cbn [andb orb]; rewrite ?orb_false_r, ?andb_true_r, ?orb_assoc.

Lemma visible_select_storage (env : Env) (o : object) :
  visible storage_policies SELECT env o =
  bool_decide (bucket_id o = "assignments") && own_folder_test env o
  || bool_decide (bucket_id o = "assignments")
       && (holds (folder_is o 1 (Some "submissions"))
           && holds (caller_is_tutor env))
  || bool_decide (bucket_id o = "assignments")
       && has_role env (auth_uid env) "admin"
  || bool_decide (bucket_id o = "lesson-materials")
  || bool_decide (bucket_id o = "lesson-materials")
       && has_role env (auth_uid env) "admin".
Proof. storage_policy_cases. reflexivity. Qed.

Lemma visible_delete_storage (env : Env) (o : object) :
  visible storage_policies DELETE env o =
  bool_decide (bucket_id o = "assignments")
    && has_role env (auth_uid env) "admin"
  || bool_decide (bucket_id o = "lesson-materials")
       && holds (caller_is_tutor env)
  || bool_decide (bucket_id o = "lesson-materials")
       && has_role env (auth_uid env) "admin".
Proof. storage_policy_cases. reflexivity. Qed.

Lemma visible_update_storage (env : Env) (o : object) :
  visible storage_policies UPDATE env o =
  bool_decide (bucket_id o = "assignments")
    && has_role env (auth_uid env) "admin"
  || bool_decide (bucket_id o = "lesson-materials")
       && has_role env (auth_uid env) "admin".
Proof. storage_policy_cases. reflexivity. Qed.

Lemma check_update_storage (env : Env) (o : object) :
  check_passes storage_policies UPDATE env o =
  bool_decide (bucket_id o = "assignments")
    && has_role env (auth_uid env) "admin"
  || bool_decide (bucket_id o = "lesson-materials")
       && has_role env (auth_uid env) "admin".
Proof. storage_policy_cases. reflexivity. Qed.

End StorageAccess.

(** ** The text form of a uuid *)

Section UuidText.

Import Sql Rls.

Local Open Scope N_scope.

Lemma string_app_snoc_inj (s t : string) (c d : ascii) :
  s +:+ String c EmptyString = t +:+ String d EmptyString ->
  s = t /\ c = d.
Proof.
  revert t. induction s as [|x s IH]; intros [|y t]; simpl; intros H.
  - injection H as ->. auto.
  - injection H as -> H. destruct t; discriminate.
  - injection H as -> H. destruct s; discriminate.
  - injection H as -> H. destruct (IH t H) as [-> ->]. auto.
Qed.

Lemma hex_digit_inj (a b : N) :
  a < 16 -> b < 16 -> hex_digit a = hex_digit b -> a = b.
Proof.
  intros Ha Hb H.
  assert (Hcases : forall n, n < 16 ->
            In n [0; 1; 2; 3; 4; 5; 6; 7; 8; 9; 10; 11; 12; 13; 14; 15]).
  { intros n Hn. simpl.
    destruct n as [|p]; [auto|].
    do 4 (destruct p as [p|p|]; try lia; auto 20). }
  apply Hcases in Ha. apply Hcases in Hb. simpl in Ha, Hb.
  repeat (destruct Ha as [<-|Ha]; [
    repeat (destruct Hb as [<-|Hb]; [first [reflexivity|discriminate H]|]);
    destruct Hb|]).
  destruct Ha.
Qed.

Lemma string_length_app (s t : string) :
  String.length (s +:+ t) = (String.length s + String.length t)%nat.
Proof.
  induction s as [|x s IH]; [reflexivity|].
  change (S (String.length (s +:+ t))
          = S (String.length s + String.length t)%nat).
  rewrite IH. reflexivity.
Qed.

Lemma hex_fixed_length (w : nat) (n : N) :
  String.length (hex_fixed w n) = w.
Proof.
  revert n. induction w as [|w IH]; intros n; [reflexivity|].
  cbn [hex_fixed]. rewrite string_length_app, IH. simpl. lia.
Qed.

(** The digits fix the number up to [16 ^ w]. *)
Lemma hex_fixed_inj (w : nat) (n m : N) :
  hex_fixed w n = hex_fixed w m ->
  n mod 16 ^ N.of_nat w = m mod 16 ^ N.of_nat w.
Proof.
  revert n m. induction w as [|w IH]; intros n m H.
  - simpl. rewrite !N.mod_1_r. reflexivity.
  - simpl in H. apply string_app_snoc_inj in H. destruct H as [Hhi Hlo].
    apply IH in Hhi.
    apply hex_digit_inj in Hlo;
      [|change 15 with (N.ones 4); rewrite N.land_ones; apply N.mod_lt; lia
       |change 15 with (N.ones 4); rewrite N.land_ones; apply N.mod_lt; lia].
    change 15 with (N.ones 4) in Hlo. rewrite !N.land_ones in Hlo.
    rewrite !N.shiftr_div_pow2 in Hhi.
    change (2 ^ 4) with 16 in *.
    rewrite Nat2N.inj_succ, N.pow_succ_r'.
    rewrite !N.Div0.mod_mul_r. rewrite Hhi, Hlo. reflexivity.
Qed.

Lemma string_app_inj_length (s1 s2 t1 t2 : string) :
  String.length s1 = String.length s2 ->
  s1 +:+ t1 = s2 +:+ t2 -> s1 = s2 /\ t1 = t2.
Proof.
  revert s2. induction s1 as [|x s1 IH]; intros [|y s2]; simpl;
    intros Hl H; try discriminate.
  - auto.
  - injection H as -> H. injection Hl as Hl.
    destruct (IH s2 Hl H) as [-> ->]. auto.
Qed.

Lemma slice_testbit (u u' : N) (k w i : N) :
  (N.shiftr u k) mod 2 ^ w = (N.shiftr u' k) mod 2 ^ w ->
  k <= i < k + w ->
  N.testbit u i = N.testbit u' i.
Proof.
  intros H Hi.
  apply (f_equal (fun x => N.testbit x (i - k))) in H.
  rewrite !N.mod_pow2_bits_low, !N.shiftr_spec' in H by lia.
  replace (i - k + k) with i in H by lia. exact H.
Qed.

(** Distinct uuids have distinct text forms. *)
Lemma uuid_text_inj (u u' : uuid) :
  is_uuid u -> is_uuid u' -> uuid_text u = uuid_text u' -> u = u'.
Proof.
  unfold is_uuid, uuid_text. intros Hu Hu' H.
  assert (Hdash : forall a b : string, "-" +:+ a = "-" +:+ b -> a = b).
  { intros a b Hab. injection Hab as Hab. exact Hab. }
  apply string_app_inj_length in H; [|rewrite !hex_fixed_length; reflexivity].
  destruct H as [H1 H]. apply Hdash in H.
  apply string_app_inj_length in H; [|rewrite !hex_fixed_length; reflexivity].
  destruct H as [H2 H]. apply Hdash in H.
  apply string_app_inj_length in H; [|rewrite !hex_fixed_length; reflexivity].
  destruct H as [H3 H]. apply Hdash in H.
  apply string_app_inj_length in H; [|rewrite !hex_fixed_length; reflexivity].
  destruct H as [H4 H5]. apply Hdash in H5.
  apply hex_fixed_inj in H1, H2, H3, H4, H5.
  change (16 ^ N.of_nat 8) with (2 ^ 32) in H1.
  change (16 ^ N.of_nat 4) with (2 ^ 16) in H2, H3, H4.
  change (16 ^ N.of_nat 12) with (2 ^ 48) in H5.
  rewrite <- (N.shiftr_0_r u), <- (N.shiftr_0_r u') in H5.
  apply N.bits_inj. intros i.
  destruct (N.lt_ge_cases i 48) as [?|?];
    [apply (slice_testbit u u' 0 48 i H5); lia|].
  destruct (N.lt_ge_cases i 64) as [?|?];
    [apply (slice_testbit u u' 48 16 i H4); lia|].
  destruct (N.lt_ge_cases i 80) as [?|?];
    [apply (slice_testbit u u' 64 16 i H3); lia|].
  destruct (N.lt_ge_cases i 96) as [?|?];
    [apply (slice_testbit u u' 80 16 i H2); lia|].
  destruct (N.lt_ge_cases i 128) as [?|?];
    [apply (slice_testbit u u' 96 32 i H1); lia|].
  assert (Hhigh : forall v, v < 2 ^ 128 -> N.testbit v i = false).
  { intros v Hv. rewrite <- (N.mod_small v (2 ^ 128)) by exact Hv.
    apply N.mod_pow2_bits_high. lia. }
  rewrite (Hhigh u Hu), (Hhigh u' Hu'). reflexivity.
Qed.

End UuidText.

(** ** Students, tutors, administrators, strangers *)

Section Roles.

Import Sql Rls.

Lemma own_folder_test_iff (env : Env) (u : uuid) (o : object) :
  auth_uid env = Some u ->
  own_folder_test env o = true <->
  exists rest, name o = "submissions" +:+ "/" +:+ uuid_text u +:+ "/" +:+ rest.
Proof.
  intros Hu.
  rewrite <- (folders_prefix_iff (name o) "submissions" (uuid_text u)
                eq_refl (uuid_text_no_slash u)).
  unfold own_folder_test, folder_is. rewrite Hu.
  cbn [fmap option_fmap option_map].
  rewrite andb_true_iff, !holds_sql_eq. split.
  - intros [(x & Hx & [= <-]) (y & Hy & [= <-])]. auto.
  - intros [H1 H2]. split; eauto.
Qed.

(** An authenticated identity without the admin role may insert into
    the [assignments] bucket exactly the objects named
    [submissions/<own id>/...]. *)
Theorem student_upload_iff_own_path (env : Env) (u : uuid) (o : object) :
  auth_uid env = Some u ->
  has_role env (Some u) "admin" = false ->
  bucket_id o = "assignments" ->
  may_insert storage_policies env o = true <->
  exists rest, name o = "submissions" +:+ "/" +:+ uuid_text u +:+ "/" +:+ rest.
Proof.
  intros Hu Hrole Hb.
  rewrite <- (own_folder_test_iff env u o Hu), may_insert_storage.
  rewrite Hb, Hu, Hrole.
  replace (bool_decide ("assignments" = "assignments")) with true
    by reflexivity.
  replace (bool_decide ("assignments" = "lesson-materials")) with false
    by reflexivity.
  cbn [is_not_null holds andb orb]. rewrite !orb_false_r. reflexivity.
Qed.

(** What such an identity may read in the [assignments] bucket: the
    objects of its own folder, and, when it tutors some course, every
    object whose first folder is "submissions". *)
Theorem non_admin_read_iff (env : Env) (u : uuid) (o : object) :
  auth_uid env = Some u ->
  has_role env (Some u) "admin" = false ->
  bucket_id o = "assignments" ->
  visible storage_policies SELECT env o = true <->
  (exists rest,
     name o = "submissions" +:+ "/" +:+ uuid_text u +:+ "/" +:+ rest)
  \/ (subscript (foldername (name o)) 1 = Some "submissions"
      /\ exists tc, In tc (tutor_courses env) /\ tutor_id tc = u).
Proof.
  intros Hu Hrole Hb.
  rewrite <- (own_folder_test_iff env u o Hu), visible_select_storage.
  rewrite Hb, Hu, Hrole.
  replace (bool_decide ("assignments" = "assignments")) with true
    by reflexivity.
  replace (bool_decide ("assignments" = "lesson-materials")) with false
    by reflexivity.
  cbn [andb orb]. rewrite !orb_false_r, orb_true_iff, andb_true_iff.
  unfold folder_is. rewrite holds_sql_eq, holds_caller_is_tutor, Hu.
  split; (intros [H|[H1 H2]]; [left; exact H|right]).
  - destruct H1 as (x & Hx & [= <-]). split; [exact Hx|].
    destruct H2 as (tc & Hin & [= ->]). eauto.
  - split; [eauto|]. destruct H2 as (tc & Hin & <-). eauto.
Qed.

(** Whoever tutors a course, any course, may read every object under
    "submissions" in the bucket: the policy does not look at the course. *)
Theorem any_tutor_reads_all_submissions (env : Env) (tc : tutor_course)
    (o : object) :
  In tc (tutor_courses env) ->
  auth_uid env = Some (tutor_id tc) ->
  bucket_id o = "assignments" ->
  subscript (foldername (name o)) 1 = Some "submissions" ->
  visible storage_policies SELECT env o = true.
Proof.
  intros Hin Hu Hb Hf. rewrite visible_select_storage, Hb.
  replace (bool_decide ("assignments" = "assignments")) with true
    by reflexivity.
  assert (Ht : holds (caller_is_tutor env) = true)
    by (apply holds_caller_is_tutor; eauto).
  assert (H1 : holds (folder_is o 1 (Some "submissions")) = true)
    by (unfold folder_is; apply holds_sql_eq; eauto).
  rewrite Ht, H1. cbn [andb]. rewrite orb_true_r. reflexivity.
Qed.

(** Only the admin role removes or replaces an object of the
    [assignments] bucket: no policy gives a student or a tutor DELETE
    or UPDATE there. *)
Theorem only_admin_modifies_assignment_files (env : Env) (o o' : object) :
  bucket_id o = "assignments" ->
  bucket_id o' = "assignments" ->
  (visible storage_policies DELETE env o = true
     <-> has_role env (auth_uid env) "admin" = true)
  /\ (may_update storage_policies env o o' = true
     <-> has_role env (auth_uid env) "admin" = true).
Proof.
  intros Hb Hb'. unfold may_update.
  rewrite visible_delete_storage, visible_update_storage,
    check_update_storage, Hb, Hb'.
  replace (bool_decide ("assignments" = "assignments")) with true
    by reflexivity.
  replace (bool_decide ("assignments" = "lesson-materials")) with false
    by reflexivity.
  cbn [andb orb]. rewrite !orb_false_r, andb_diag. tauto.
Qed.

(** A caller without a session (and so without the admin role) reaches
    nothing in the [assignments] bucket: no insert, select, update or
    delete. *)
Theorem anonymous_denied_assignment_files (env : Env) (o o' : object) :
  auth_uid env = None ->
  has_role env None "admin" = false ->
  bucket_id o = "assignments" ->
  may_insert storage_policies env o = false
  /\ visible storage_policies SELECT env o = false
  /\ visible storage_policies DELETE env o = false
  /\ may_update storage_policies env o o' = false.
Proof.
  intros Hu Hrole Hb. unfold may_update.
  rewrite may_insert_storage, visible_select_storage, visible_delete_storage,
    visible_update_storage, Hb, Hu, Hrole.
  replace (bool_decide ("assignments" = "assignments")) with true
    by reflexivity.
  replace (bool_decide ("assignments" = "lesson-materials")) with false
    by reflexivity.
  assert (Hown : own_folder_test env o = false).
  { unfold own_folder_test, folder_is. rewrite Hu.
    cbn [fmap option_fmap option_map].
    destruct (subscript (foldername (name o)) 2); simpl;
      apply andb_false_r. }
  assert (Ht : holds (caller_is_tutor env) = false).
  { apply not_true_iff_false. rewrite holds_caller_is_tutor.
    intros (tc & _ & H). congruence. }
  rewrite Hown, Ht. cbn [is_not_null holds andb orb].
  rewrite !andb_false_r. auto.
Qed.

(** The admin role passes every policy check on both buckets. *)
Theorem admin_manages_both_buckets (env : Env) (o o' : object) :
  has_role env (auth_uid env) "admin" = true ->
  bucket_id o = "assignments" \/ bucket_id o = "lesson-materials" ->
  bucket_id o' = bucket_id o ->
  may_insert storage_policies env o = true
  /\ visible storage_policies SELECT env o = true
  /\ visible storage_policies DELETE env o = true
  /\ may_update storage_policies env o o' = true.
Proof.
  intros Hrole Hb Hb'. unfold may_update.
  rewrite may_insert_storage, visible_select_storage, visible_delete_storage,
    visible_update_storage, check_update_storage, Hb', Hrole.
  destruct Hb as [-> | ->].
  - replace (bool_decide ("assignments" = "assignments")) with true
      by reflexivity.
    cbn [andb orb]. rewrite !orb_true_r. auto.
  - replace (bool_decide ("lesson-materials" = "lesson-materials")) with true
      by reflexivity.
    replace (bool_decide ("lesson-materials" = "assignments")) with false
      by reflexivity.
    cbn [andb orb]. rewrite !orb_true_r. auto.
Qed.

(** The [lesson-materials] bucket: everyone, signed in or not, may
    read; without the admin role, inserting and deleting are open to
    whoever tutors some course, whatever the path, and updating to
    nobody. *)
Theorem lesson_material_files_access (env : Env) (o o' : object) :
  bucket_id o = "lesson-materials" ->
  visible storage_policies SELECT env o = true
  /\ (has_role env (auth_uid env) "admin" = false ->
      (may_insert storage_policies env o = true
         <-> exists tc, In tc (tutor_courses env)
                        /\ auth_uid env = Some (tutor_id tc))
      /\ (visible storage_policies DELETE env o = true
         <-> exists tc, In tc (tutor_courses env)
                        /\ auth_uid env = Some (tutor_id tc))
      /\ may_update storage_policies env o o' = false).
Proof.
  intros Hb. split.
  - rewrite visible_select_storage, Hb.
    replace (bool_decide ("lesson-materials" = "lesson-materials")) with true
      by reflexivity.
    cbn [andb orb]. rewrite orb_true_r. reflexivity.
  - intros Hrole. unfold may_update.
    rewrite may_insert_storage, visible_delete_storage,
      visible_update_storage, Hb, Hrole, <- holds_caller_is_tutor.
    replace (bool_decide ("lesson-materials" = "lesson-materials")) with true
      by reflexivity.
    replace (bool_decide ("lesson-materials" = "assignments")) with false
      by reflexivity.
    cbn [andb orb]. rewrite ?andb_false_r, ?orb_false_r.
    cbn [andb orb]. tauto.
Qed.

(** Students are kept apart: an identity without the admin role cannot
    insert an object into another identity's folder, and the student
    read policy does not show it one. *)
Theorem student_folders_isolated (env : Env) (u u' : uuid) (o : object)
    (rest : string) :
  is_uuid u -> is_uuid u' -> u <> u' ->
  auth_uid env = Some u ->
  has_role env (Some u) "admin" = false ->
  bucket_id o = "assignments" ->
  name o = "submissions" +:+ "/" +:+ uuid_text u' +:+ "/" +:+ rest ->
  may_insert storage_policies env o = false
  /\ passes (pol_using students_can_view) env o = false.
Proof.
  intros Hv Hv' Hne Hu Hrole Hb Hname.
  assert (Hown : own_folder_test env o = false).
  { apply not_true_iff_false. rewrite (own_folder_test_iff env u o Hu).
    intros (rest' & Hname').
    assert (Hf : subscript (foldername (name o)) 2 = Some (uuid_text u)).
    { apply (folders_prefix_iff (name o) "submissions" (uuid_text u)
               eq_refl (uuid_text_no_slash u)). eauto. }
    assert (Hf' : subscript (foldername (name o)) 2 = Some (uuid_text u')).
    { apply (folders_prefix_iff (name o) "submissions" (uuid_text u')
               eq_refl (uuid_text_no_slash u')). eauto. }
    assert (Htext : uuid_text u = uuid_text u') by congruence.
    apply Hne, uuid_text_inj; assumption. }
  split.
  - rewrite may_insert_storage, Hb, Hown, Hu, Hrole.
    replace (bool_decide ("assignments" = "lesson-materials")) with false
      by reflexivity.
    cbn [andb orb]. rewrite !andb_false_r. reflexivity.
  - cbn [passes pol_using students_can_view].
    rewrite !holds_sql_and.
    change (holds (bucket_is o "assignments") && own_folder_test env o
            = false).
    rewrite Hown. apply andb_false_r.
Qed.

End Roles.

Lemma student_upload_iff_own_path_witness :
  Sql.may_insert Sql.storage_policies student_env essay = true
  /\ (exists rest,
        Sql.name essay
        = "submissions" +:+ "/" +:+
          Sql.uuid_text 0x123e4567e89b12d3a456426614174000%N +:+ "/" +:+ rest)
  /\ Sql.may_insert Sql.storage_policies student_env others_essay = false.
Proof.
  pose proof (student_upload_iff_own_path student_env
                0x123e4567e89b12d3a456426614174000%N essay
                eq_refl eq_refl eq_refl) as H.
  assert (Hi : Sql.may_insert Sql.storage_policies student_env essay = true)
    by (vm_compute; reflexivity).
  split; [exact Hi|]. split; [exact (proj1 H Hi)|].
  vm_compute. reflexivity.
Defined.

(** The tutor of one course reading a student's essay. *)
Lemma non_admin_read_iff_witness :
  Sql.visible Sql.storage_policies Sql.SELECT tutor_env essay = true
  /\ Sql.visible Sql.storage_policies Sql.SELECT student_env essay = true
  /\ Sql.visible Sql.storage_policies Sql.SELECT student_env others_essay
     = false.
Proof.
  split; [|split].
  - apply (non_admin_read_iff tutor_env
             0x00000000000040008000000000000007%N essay
             eq_refl eq_refl eq_refl).
    right. split; [vm_compute; reflexivity|].
    eexists. split; [left; reflexivity|reflexivity].
  - apply (non_admin_read_iff student_env
             0x123e4567e89b12d3a456426614174000%N essay
             eq_refl eq_refl eq_refl).
    left. exists "essay.txt". vm_compute. reflexivity.
  - vm_compute. reflexivity.
Defined.

Lemma any_tutor_reads_all_submissions_witness :
  Sql.visible Sql.storage_policies Sql.SELECT tutor_env essay = true
  /\ Sql.visible Sql.storage_policies Sql.SELECT tutor_env others_essay = true.
Proof.
  split.
  - apply (any_tutor_reads_all_submissions tutor_env
             {| Sql.tutor_id := 0x00000000000040008000000000000007%N;
                Sql.course_id := 0x000000000000400080000000000000c1%N |}
             essay).
    + left. reflexivity.
    + reflexivity.
    + reflexivity.
    + vm_compute. reflexivity.
  - apply (any_tutor_reads_all_submissions tutor_env
             {| Sql.tutor_id := 0x00000000000040008000000000000007%N;
                Sql.course_id := 0x000000000000400080000000000000c1%N |}
             others_essay).
    + left. reflexivity.
    + reflexivity.
    + reflexivity.
    + vm_compute. reflexivity.
Defined.

(** The administrator may delete the essay; its author may not. *)
Lemma only_admin_modifies_assignment_files_witness :
  Sql.visible Sql.storage_policies Sql.DELETE admin_env essay = true
  /\ Rls.may_update Sql.storage_policies admin_env essay essay = true
  /\ Sql.visible Sql.storage_policies Sql.DELETE student_env essay = false
  /\ Rls.may_update Sql.storage_policies student_env essay essay = false.
Proof.
  destruct (only_admin_modifies_assignment_files admin_env essay essay
              eq_refl eq_refl) as [Hd Hu].
  split; [apply Hd; vm_compute; reflexivity|].
  split; [apply Hu; vm_compute; reflexivity|].
  split; vm_compute; reflexivity.
Defined.

Lemma anonymous_denied_assignment_files_witness :
  Sql.may_insert Sql.storage_policies anonymous_env essay = false
  /\ Sql.visible Sql.storage_policies Sql.SELECT anonymous_env essay = false
  /\ Sql.visible Sql.storage_policies Sql.DELETE anonymous_env essay = false
  /\ Rls.may_update Sql.storage_policies anonymous_env essay essay = false.
Proof.
  apply (anonymous_denied_assignment_files anonymous_env essay essay);
    reflexivity.
Defined.

Lemma admin_manages_both_buckets_witness :
  Sql.may_insert Sql.storage_policies admin_env slides = true
  /\ Sql.visible Sql.storage_policies Sql.SELECT admin_env slides = true
  /\ Sql.visible Sql.storage_policies Sql.DELETE admin_env slides = true
  /\ Rls.may_update Sql.storage_policies admin_env slides slides = true.
Proof.
  apply (admin_manages_both_buckets admin_env slides slides).
  - vm_compute. reflexivity.
  - right. reflexivity.
  - reflexivity.
Defined.

(** The tutor uploads slides; the student reads them but cannot. *)
Lemma lesson_material_files_access_witness :
  Sql.visible Sql.storage_policies Sql.SELECT anonymous_env slides = true
  /\ Sql.may_insert Sql.storage_policies tutor_env slides = true
  /\ Sql.visible Sql.storage_policies Sql.DELETE tutor_env slides = true
  /\ Rls.may_update Sql.storage_policies tutor_env slides slides = false
  /\ Sql.may_insert Sql.storage_policies student_env slides = false.
Proof.
  destruct (lesson_material_files_access tutor_env slides slides eq_refl)
    as [_ Ht].
  destruct (Ht eq_refl) as (Hi & Hd & Hu).
  assert (Htutor : exists tc,
            In tc (Sql.tutor_courses tutor_env)
            /\ Sql.auth_uid tutor_env = Some (Sql.tutor_id tc)).
  { eexists. split; [left; reflexivity|reflexivity]. }
  split; [apply (lesson_material_files_access anonymous_env slides slides
                   eq_refl)|].
  split; [apply Hi, Htutor|]. split; [apply Hd, Htutor|].
  split; [exact Hu|]. vm_compute. reflexivity.
Defined.

Lemma student_folders_isolated_witness :
  Sql.may_insert Sql.storage_policies student_env others_essay = false
  /\ Sql.passes (Sql.pol_using Sql.students_can_view) student_env others_essay
     = false.
Proof.
  apply (student_folders_isolated student_env
           0x123e4567e89b12d3a456426614174000%N other_student
           others_essay "essay.txt").
  - reflexivity.
  - reflexivity.
  - discriminate.
  - reflexivity.
  - reflexivity.
  - reflexivity.
  - vm_compute. reflexivity.
Defined.

(** ** The [lesson_materials] table *)

Section MaterialRows.

Import Sql Rls.

Lemma holds_tutor_rows (db : Db) (row : lesson_material) :
  tp_passes (tp_using tutors_manage_rows) db row = true
  <-> tutors_lesson_of db row.
Proof.
  cbn [tp_passes tp_using tutors_manage_rows].
  unfold sql_exists, lessons_join_tutor_courses, tutors_lesson_of.
  rewrite holds_Some, existsb_exists. split.
  - intros ([l tc] & Hin & H).
    apply List.filter_In in Hin. destruct Hin as [Hin Hon].
    apply in_prod_iff in Hin. destruct Hin as [Hl Htc].
    cbn [fst snd] in *.
    rewrite holds_sql_and, andb_true_iff, !holds_sql_eq in H.
    rewrite holds_sql_eq in Hon.
    destruct H as [(x & [= <-] & [= Hid]) (y & [= <-] & Hu)].
    destruct Hon as (z & [= <-] & [= Hc]).
    exists l, tc. auto.
  - intros (l & tc & Hl & Htc & Hid & Hc & Hu).
    exists (l, tc). split.
    + apply List.filter_In. split; [apply in_prod_iff; auto|].
      cbn [fst snd]. rewrite Hc. apply holds_sql_eq_refl.
    + cbn [fst snd]. rewrite holds_sql_and, Hid, Hu, !holds_sql_eq_refl.
      reflexivity.
Qed.

(** Every caller, signed in or not, may select every material row.
    Without the admin role, a row may be inserted, updated or deleted
    exactly by a caller who tutors the course of the row's lesson. *)
Theorem lesson_material_rows_access (db : Db) (row : lesson_material) :
  row_visible lesson_materials_policies SELECT db row = true
  /\ (has_role (session db) (auth_uid (session db)) "admin" = false ->
      (row_check_passes lesson_materials_policies INSERT db row = true
         <-> tutors_lesson_of db row)
      /\ (row_visible lesson_materials_policies UPDATE db row = true
         <-> tutors_lesson_of db row)
      /\ (row_check_passes lesson_materials_policies UPDATE db row = true
         <-> tutors_lesson_of db row)
      /\ (row_visible lesson_materials_policies DELETE db row = true
         <-> tutors_lesson_of db row)).
Proof.
  split; [reflexivity|].
  intros Hrole. rewrite <- holds_tutor_rows.
  unfold row_visible, row_check_passes, lesson_materials_policies.
  cbn [existsb tp_applies tp_for anyone_can_view_rows admins_manage_rows
       tp_check_of tp_with_check].
  change (tp_for tutors_manage_rows) with FOR_ALL.
  change (tp_with_check tutors_manage_rows) with (@None row_qual).
  cbn [tp_using anyone_can_view_rows admins_manage_rows tp_passes].
  rewrite holds_Some, Hrole.
  replace (bool_decide (INSERT = SELECT)) with false by reflexivity.
  replace (bool_decide (UPDATE = SELECT)) with false by reflexivity.
  replace (bool_decide (DELETE = SELECT)) with false by reflexivity.
  cbn [andb orb]. rewrite !orb_false_r. tauto.
Qed.

End MaterialRows.

(** The tutor of course c1 manages the material of a c1 lesson, not the
    material of another course's lesson. *)
Lemma lesson_material_rows_access_witness :
  Rls.row_check_passes Rls.lesson_materials_policies Sql.INSERT
    tutor_db own_material = true
  /\ Rls.row_visible Rls.lesson_materials_policies Sql.DELETE
       tutor_db own_material = true
  /\ Rls.row_check_passes Rls.lesson_materials_policies Sql.INSERT
       tutor_db foreign_material = false
  /\ Rls.row_visible Rls.lesson_materials_policies Sql.SELECT
       tutor_db foreign_material = true.
Proof.
  destruct (lesson_material_rows_access tutor_db own_material) as [_ H].
  destruct (H eq_refl) as (Hi & _ & _ & Hd).
  assert (Ht : Rls.tutors_lesson_of tutor_db own_material).
  { eexists _, _. split; [left; reflexivity|].
    split; [left; reflexivity|]. repeat split. }
  split; [apply Hi, Ht|]. split; [apply Hd, Ht|].
  split; [vm_compute; reflexivity|].
  apply (lesson_material_rows_access tutor_db foreign_material).
Defined.
